(** * way-back-home: participant lifecycle and biome mapping

    A shallow embedding of
    - [solutions/level_1/generate_evidence.py] ([get_biome]), and
    - [dashboard/backend/app/routes/participants.py] together with the
      request/response models of [dashboard/backend/app/models/participants.py],
    followed by the properties the specification states about them. *)

From Stdlib Require Import ZArith Lia List Ascii String.
From stdpp Require Import base strings gmap fin_maps list.

Local Open Scope string_scope.
Local Open Scope Z_scope.

(** ** Biome mapping ([generate_evidence.py]) *)

Module Biome.

(** [get_biome(x, y)]: the four-way [if]/[elif]/[else] on the fixed
    midpoint 50.  Python's [and] on two comparisons is [&&]. *)
Definition get_biome (x y : Z) : string :=
  if (x <? 50) && (y >=? 50) then "CRYO"
  else if (x >=? 50) && (y >=? 50) then "VOLCANIC"
  else if (x <? 50) && (y <? 50) then "BIOLUMINESCENT"
  else "FOSSILIZED".

(** The labels the function can return, in source order. *)
Definition biomes : list string :=
  ["CRYO"; "VOLCANIC"; "BIOLUMINESCENT"; "FOSSILIZED"].

End Biome.

(** ** Python values and documents

    Firestore documents reach the routes as Python dicts from field name to
    value.  [value] has the kinds of value the participant and event
    documents hold. *)

Inductive value :=
| VNone
| VBool (b : bool)
| VInt (n : Z)
| VStr (s : string)
| VTime (t : Z)                        (* a [datetime], as a timestamp *)
| VDict (d : list (string * string)).  (* [evidence_urls]: name to URL *)

Global Instance value_eq_dec : EqDecision value.
Proof. solve_decision. Defined.

Abbreviation dict := (gmap string value).

(** Python truthiness, as used by [if v:] and [not v]. *)
Definition truthy (v : value) : bool :=
  match v with
  | VNone => false
  | VBool b => b
  | VInt n => negb (n =? 0)
  | VStr s => negb (String.eqb s "")
  | VTime _ => true
  | VDict d => match d with [] => false | _ => true end
  end.

(** [d.get(key)]: a missing key reads as [None]. *)
Definition py_get (d : dict) (key : string) : value :=
  default VNone (d !! key).

(** [d.get(key, dflt)]. *)
Definition py_get_default (d : dict) (key : string) (dflt : value) : value :=
  default dflt (d !! key).

(** The result of a fetch ([get_event], [get_participant]) under [if not r:]
    is falsy when it is [None] and also when it is the empty dict.
    [py_found] keeps the document exactly when the test lets it through. *)
Definition py_found (r : option dict) : option dict :=
  match r with
  | Some d => if decide (d = ∅) then None else Some d
  | None => None
  end.

(** Numeric reading of a value: [bool] is a subclass of [int]. *)
Definition as_number (v : value) : option Z :=
  match v with
  | VInt n => Some n
  | VBool b => Some (if b then 1 else 0)
  | _ => None
  end.

(** [a >= b]; [None] stands for the [TypeError] Python raises on operands
    that are not ordered with each other. *)
Definition py_ge (a b : value) : option bool :=
  match as_number a, as_number b with
  | Some x, Some y => Some (x >=? y)
  | _, _ =>
      match a, b with
      | VStr s, VStr t => Some (String.leb t s)
      | VTime s, VTime t => Some (s >=? t)
      | _, _ => None
      end
  end.

(** [needle in haystack] on [str]: substring test. *)
Fixpoint str_in (needle haystack : string) : bool :=
  String.prefix needle haystack ||
  match haystack with
  | EmptyString => false
  | String _ rest => str_in needle rest
  end.

(** [item in items] on a list of [str]. *)
Definition str_in_list (item : string) (items : list string) : bool :=
  existsb (String.eqb item) items.

(** ** Request and response models ([models/participants.py]) *)

Module ParticipantInit.
Record t := mk {
  event_code : string;
  username : string;
  project_id : option string;
}.

Definition username_char (c : ascii) : bool :=
  let n := nat_of_ascii c in
  ((97 <=? n) && (n <=? 122))%nat || ((65 <=? n) && (n <=? 90))%nat
  || ((48 <=? n) && (n <=? 57))%nat
  || Ascii.eqb c "_" || Ascii.eqb c "-".

(** The constraints of the [username] field:
    [min_length=2, max_length=30, pattern=^[a-zA-Z0-9_-]+$]. *)
Definition valid_username (u : string) : bool :=
  ((2 <=? String.length u) && (String.length u <=? 30))%nat
  && forallb username_char (list_ascii_of_string u).
End ParticipantInit.

Module ParticipantInitResponse.
Record t := mk {
  participant_id : string;
  username : string;
  event_code : string;
  starting_x : Z;
  starting_y : Z;
}.
End ParticipantInitResponse.

Module ParticipantRegister.
Record t := mk {
  participant_id : string;
  suit_color : option string;
  appearance : option string;
}.
End ParticipantRegister.

(** Field validators, applied to what the document holds under the field's
    name ([None] when the key is missing).  The result [None] stands for the
    validation error raised when the field has no acceptable value.  Values
    are taken at their own kind; the coercions of lax validation are not
    modelled. *)
Definition required_str (v : option value) : option string :=
  match v with Some (VStr s) => Some s | _ => None end.

Definition required_int (v : option value) : option Z :=
  match v with Some (VInt n) => Some n | _ => None end.

Definition bool_or (dflt : bool) (v : option value) : option bool :=
  match v with
  | None => Some dflt
  | Some (VBool b) => Some b
  | Some _ => None
  end.

Definition optional_str (v : option value) : option (option string) :=
  match v with
  | None | Some VNone => Some None
  | Some (VStr s) => Some (Some s)
  | Some _ => None
  end.

Definition optional_bool (v : option value) : option (option bool) :=
  match v with
  | None | Some VNone => Some None
  | Some (VBool b) => Some (Some b)
  | Some _ => None
  end.

Definition optional_datetime (v : option value) : option (option Z) :=
  match v with
  | None | Some VNone => Some None
  | Some (VTime t) => Some (Some t)
  | Some _ => None
  end.

Definition optional_dict (v : option value)
  : option (option (list (string * string))) :=
  match v with
  | None | Some VNone => Some None
  | Some (VDict u) => Some (Some u)
  | Some _ => None
  end.

Module ParticipantResponse.
Record t := mk {
  participant_id : string;
  username : string;
  event_code : string;
  x : Z;
  y : Z;
  location_confirmed : bool;
  portrait_url : option string;
  icon_url : option string;
  suit_color : option string;
  registered_at : option Z;
  active : bool;
  evidence_urls : option (list (string * string));
  level_0_complete : option bool;
  level_1_complete : option bool;
  level_2_complete : option bool;
  level_3_complete : option bool;
  level_4_complete : option bool;
  level_5_complete : option bool;
}.

(** The model built from a document's keys, as the routes do with the
    double-star call: every declared field is read from the
    document under its own name (no renaming), keys the model does not
    declare are dropped, and a missing or ill-kinded required field fails. *)
Definition construct (d : dict) : option t :=
  participant_id ← required_str (d !! "participant_id");
  username ← required_str (d !! "username");
  event_code ← required_str (d !! "event_code");
  x ← required_int (d !! "x");
  y ← required_int (d !! "y");
  location_confirmed ← bool_or false (d !! "location_confirmed");
  portrait_url ← optional_str (d !! "portrait_url");
  icon_url ← optional_str (d !! "icon_url");
  suit_color ← optional_str (d !! "suit_color");
  registered_at ← optional_datetime (d !! "registered_at");
  active ← bool_or true (d !! "active");
  evidence_urls ← optional_dict (d !! "evidence_urls");
  level_0_complete ← optional_bool (d !! "level_0_complete");
  level_1_complete ← optional_bool (d !! "level_1_complete");
  level_2_complete ← optional_bool (d !! "level_2_complete");
  level_3_complete ← optional_bool (d !! "level_3_complete");
  level_4_complete ← optional_bool (d !! "level_4_complete");
  level_5_complete ← optional_bool (d !! "level_5_complete");
  Some (mk participant_id username event_code x y location_confirmed
           portrait_url icon_url suit_color registered_at active
           evidence_urls level_0_complete level_1_complete level_2_complete
           level_3_complete level_4_complete level_5_complete).
End ParticipantResponse.

Definition value_of_bool (o : option bool) : value :=
  match o with Some b => VBool b | None => VNone end.

Definition value_of_int (o : option Z) : value :=
  match o with Some n => VInt n | None => VNone end.

Definition value_of_str (o : option string) : value :=
  match o with Some s => VStr s | None => VNone end.

Module ParticipantUpdate.
Record t := mk {
  level_0_complete : option bool;
  level_1_complete : option bool;
  level_2_complete : option bool;
  level_3_complete : option bool;
  level_4_complete : option bool;
  level_5_complete : option bool;
  completion_percentage : option Z;
}.

(** [updates.dict().items()]: every declared field in declaration order,
    unset ones with the value [None]. *)
Definition items (u : t) : list (string * value) :=
  [ ("level_0_complete", value_of_bool (level_0_complete u));
    ("level_1_complete", value_of_bool (level_1_complete u));
    ("level_2_complete", value_of_bool (level_2_complete u));
    ("level_3_complete", value_of_bool (level_3_complete u));
    ("level_4_complete", value_of_bool (level_4_complete u));
    ("level_5_complete", value_of_bool (level_5_complete u));
    ("completion_percentage", value_of_int (completion_percentage u)) ].
End ParticipantUpdate.

(** An uploaded file as the routes use it: the declared content type (which
    a client may omit) and the bytes [read()] returns. *)
Module UploadFile.
Record t := mk {
  content_type : option string;
  content : list Byte.byte;
}.
End UploadFile.

(** ** Route programs

    A route is an [async def]: straight-line Python between [await]s on the
    persistence layer and the storage client.  It is embedded as a tree of
    the calls it awaits, so that one route can be run to completion against
    a world, and several can be interleaved at their [await]s. *)

Inductive exn :=
| HTTPException (status_code : Z) (detail : string)
| TypeError
| KeyError (key : string)
| ValueError
| ValidationError.

Global Instance exn_eq_dec : EqDecision exn.
Proof. solve_decision. Defined.

(** What the persistence layer answers to a write. *)
Inductive store_result := StoreOk | StoreConflict | StoreNotFound.

(** The calls a route makes outside its own code: [..database], [..storage],
    [secrets.token_hex], [random.randint] and [datetime.now]. *)
Inductive call :=
| GetEvent (event_code : string)
| GetParticipant (participant_id : string)
| CheckUsernameExists (event_code username : string)
| CreateParticipant (participant : dict)
| UpdateParticipant (participant_id : string) (updates : dict)
| UploadAvatarImage (path : string) (bytes : list Byte.byte)
                    (content_type : option string)
| TokenHex (nbytes : nat)
| RandInt (a b : Z)
| UtcNow.

Definition answer (c : call) : Type :=
  match c with
  | GetEvent _ | GetParticipant _ => option dict
  | CheckUsernameExists _ _ => bool
  | CreateParticipant _ | UpdateParticipant _ _ => store_result
  | UploadAvatarImage _ _ _ => unit
  | TokenHex _ => string
  | RandInt _ _ | UtcNow => Z
  end.

Inductive prog (A : Type) : Type :=
| Ret (a : A)
| Raise (e : exn)
| Do (c : call) (k : answer c → prog A).

Arguments Ret {A} a.
Arguments Raise {A} e.
Arguments Do {A} c k.

Fixpoint bind {A B} (m : prog A) (f : A → prog B) : prog B :=
  match m with
  | Ret a => f a
  | Raise e => Raise e
  | Do c k => Do c (λ r, bind (k r) f)
  end.

(** [x = await f(...)] on the persistence layer or the storage client, and
    [x = f(...)] on a synchronous library function. *)
Notation "x <- 'await' c ;; k" := (Do c (λ x, k))
  (at level 100, c at next level, k at level 200, right associativity,
   format "'[v' x  <-  'await'  c  ;;  '/' k ']'").
Notation "'await' c ;; k" := (Do c (λ _, k))
  (at level 100, c at next level, k at level 200, right associativity,
   format "'[v' 'await'  c  ;;  '/' k ']'").
Notation "x <- 'call' c ;; k" := (Do c (λ x, k))
  (at level 100, c at next level, k at level 200, right associativity,
   format "'[v' x  <-  'call'  c  ;;  '/' k ']'").

(** The calls a route awaits; the others return without suspending it. *)
Definition is_await (c : call) : bool :=
  match c with
  | TokenHex _ | RandInt _ _ | UtcNow => false
  | _ => true
  end.

(** Is the call a write to the persistence layer? *)
Definition is_write (c : call) : bool :=
  match c with
  | CreateParticipant _ | UpdateParticipant _ _ => true
  | _ => false
  end.

(** Is the call a read of the persistence layer? *)
Definition is_read (c : call) : bool :=
  match c with
  | GetEvent _ | GetParticipant _ | CheckUsernameExists _ _ => true
  | _ => false
  end.

(** ** The persistence layer ([..database]) *)

Record database := mk_database {
  events : gmap string dict;
  participants : gmap string dict;
}.

Module Database.

(** Modelled from the spec: the body of [get_event] is not among the
    sources; it fetches the event by its [code] ("unique key") and answers
    [None] when there is none. *)
Definition get_event (db : database) (code : string) : option dict :=
  events db !! code.

(** Modelled from the spec: the body of [get_participant] is not among the
    sources; the store's contract is
    [get(participant_id) -> Participant | NotFound]. *)
Definition get_participant (db : database) (pid : string) : option dict :=
  participants db !! pid.

(** Modelled from the spec: the body of [check_username_exists] is not among
    the sources; the username is taken when some participant of the event
    carries it ("[username] unique within its [event_code]"). *)
Definition check_username_exists (db : database) (code u : string) : bool :=
  bool_decide (map_Exists (λ _ p,
    p !! "event_code" = Some (VStr code) ∧ p !! "username" = Some (VStr u))
    (participants db)).

(** Modelled from the spec: the key fields of a record handed to the store,
    which are strings in the data model (the empty string otherwise). *)
Definition str_field (p : dict) (k : string) : string :=
  match p !! k with Some (VStr s) => s | _ => "" end.

(** Modelled from the spec: the increment of an event's [participant_count]
    that comes with a successful creation. *)
Definition increment_count (ev : dict) : dict :=
  <["participant_count" :=
      VInt (default 0 (as_number (py_get_default ev "participant_count" (VInt 0))) + 1)]> ev.

(** Modelled from the spec: the body of [create_participant] is not among
    the sources.  The store's contract is
    [create_if_username_free(event_code, username, participant) -> Ok | Conflict]:
    one atomic operation that refuses a taken username and otherwise stores
    the record under its [participant_id] and increments the event's
    [participant_count] with it. *)
Definition create_participant (db : database) (p : dict)
  : database * store_result :=
  let code := str_field p "event_code" in
  if check_username_exists db code (str_field p "username")
  then (db, StoreConflict)
  else ({| events := alter increment_count code (events db);
           participants := <[str_field p "participant_id" := p]> (participants db) |},
        StoreOk).

Definition non_null (kv : string * value) : Prop := kv.2 ≠ VNone.

Global Instance non_null_dec kv : Decision (non_null kv).
Proof. unfold non_null. apply _. Defined.

(** Modelled from the spec: the merge of the store's [merge_update], which
    "applies only non-null fields from the partial record, leaving all
    other fields untouched". *)
Definition merge_update (partial old : dict) : dict :=
  filter non_null partial ∪ old.

(** Modelled from the spec: the body of [update_participant] is not among
    the sources.  The store's contract is
    [merge_update(participant_id, partial_fields) -> Ok | NotFound]. *)
Definition update_participant (db : database) (pid : string) (partial : dict)
  : database * store_result :=
  match participants db !! pid with
  | Some old =>
      ({| events := events db;
          participants := <[pid := merge_update partial old]> (participants db) |},
       StoreOk)
  | None => (db, StoreNotFound)
  end.

End Database.

(** ** Worlds and execution *)

(** What the routes draw from outside: token bytes, raw random draws and
    the clock, each indexed by the number of draws made so far. *)
Record oracle := mk_oracle {
  token_source : nat → string;
  random_source : nat → Z;
  clock : nat → Z;
}.

Record world := mk_world {
  db : database;
  bucket : gmap string (list Byte.byte * option string);
  env : oracle;
  tick : nat;
  trace : list call;
}.

Definition log (c : call) (w : world) : world :=
  mk_world (db w) (bucket w) (env w) (tick w) (trace w ++ [c]).

Definition with_db (d : database) (w : world) : world :=
  mk_world d (bucket w) (env w) (tick w) (trace w).

Definition with_object (path : string) (o : list Byte.byte * option string)
    (w : world) : world :=
  mk_world (db w) (<[path := o]> (bucket w)) (env w) (tick w) (trace w).

Definition drawn (w : world) : world :=
  mk_world (db w) (bucket w) (env w) (S (tick w)) (trace w).

(** [random.randint(a, b)]: some [N] with [a <= N <= b], whatever the raw
    draw; [None] stands for the [ValueError] of an empty range. *)
Definition randint (a b raw : Z) : option Z :=
  if a <=? b then Some (a + Z.modulo raw (b - a + 1)) else None.

(** One call against the world.  Every call is appended to the trace, then
    answered: the persistence calls by [Database], the draws by the oracle,
    and [upload_avatar_image] (whose body, in [..storage], is not among the
    sources) by storing the object under its path, a later upload to the
    same path replacing it. *)
Definition exec (w : world) (c : call) : world * (exn + answer c) :=
  let w := log c w in
  match c return world * (exn + answer c) with
  | GetEvent code => (w, inr (Database.get_event (db w) code))
  | GetParticipant pid => (w, inr (Database.get_participant (db w) pid))
  | CheckUsernameExists code u =>
      (w, inr (Database.check_username_exists (db w) code u))
  | CreateParticipant p =>
      let '(d, r) := Database.create_participant (db w) p in
      (with_db d w, inr r)
  | UpdateParticipant pid partial =>
      let '(d, r) := Database.update_participant (db w) pid partial in
      (with_db d w, inr r)
  | UploadAvatarImage path bytes content_type =>
      (with_object path (bytes, content_type) w, inr tt)
  | TokenHex _ => (drawn w, inr (token_source (env w) (tick w)))
  | RandInt a b =>
      (drawn w,
       match randint a b (random_source (env w) (tick w)) with
       | Some n => inr n
       | None => inl ValueError
       end)
  | UtcNow => (drawn w, inr (clock (env w) (tick w)))
  end.

Inductive outcome (A : Type) : Type :=
| Returned (a : A)
| Failed (e : exn).

Arguments Returned {A} a.
Arguments Failed {A} e.

(** A route run to completion with nothing else running in between. *)
Fixpoint run {A} (w : world) (p : prog A) : world * outcome A :=
  match p with
  | Ret a => (w, Returned a)
  | Raise e => (w, Failed e)
  | Do c k =>
      match exec w c with
      | (w', inr r) => run w' (k r)
      | (w', inl e) => (w', Failed e)
      end
  end.

(** The synchronous calls at the head of a route run at once, up to its
    next [await] (or its end). *)
Fixpoint settle {A} (w : world) (p : prog A) : world * prog A :=
  match p with
  | Do c k =>
      if is_await c then (w, p)
      else match exec w c with
           | (w', inr r) => settle w' (k r)
           | (w', inl e) => (w', Raise e)
           end
  | _ => (w, p)
  end.

(** One step of a route: the call it is waiting on is made, and the route
    runs on to its next [await] (or to its end) without interruption. *)
Definition step {A} (w : world) (p : prog A) : world * prog A :=
  match settle w p with
  | (w1, Do c k) =>
      match exec w1 c with
      | (w', inr r) => settle w' (k r)
      | (w', inl e) => (w', Raise e)
      end
  | stopped => stopped
  end.

(** Requests in flight, interleaved at their [await]s: the schedule names,
    step by step, which request advances. *)
Fixpoint interleave {A} (schedule : list nat) (w : world)
    (tasks : list (prog A)) : world * list (prog A) :=
  match schedule with
  | [] => (w, tasks)
  | i :: rest =>
      match tasks !! i with
      | Some p =>
          let '(w', p') := step w p in
          interleave rest w' (<[i := p']> tasks)
      | None => interleave rest w tasks
      end
  end.

(** ** The routes ([routes/participants.py]) *)

Section Routes.

(** [MAP_WIDTH] and [MAP_HEIGHT] come from [..config] and [get_avatar_url]
    from [..storage], none of which is among the sources; [py_format] is
    what an f-string writes for a value that is not a [str]. *)
Variables MAP_WIDTH MAP_HEIGHT : Z.
Variable get_avatar_url : string → string.
Variable py_format : value → string.

Definition fstr (v : value) : string :=
  match v with VStr s => s | _ => py_format v end.

Definition validated {A} (o : option A) : prog A :=
  match o with Some a => Ret a | None => Raise ValidationError end.

Definition not_found : exn := HTTPException 404 "Participant not found".

Definition get_participant_info (participant_id : string)
  : prog ParticipantResponse.t :=
  participant <- await GetParticipant participant_id;;
  match py_found participant with
  | None => Raise not_found
  | Some participant => validated (ParticipantResponse.construct participant)
  end.

(** The two tests [init_participant] makes on the event document:
    [event.get("active", True)] and
    [event.get("participant_count", 0) >= event.get("max_participants", 500)]. *)
Definition event_active (event : dict) : bool :=
  truthy (py_get_default event "active" (VBool true)).

Definition event_full (event : dict) : option bool :=
  py_ge (py_get_default event "participant_count" (VInt 0))
        (py_get_default event "max_participants" (VInt 500)).

(** The record [init_participant] creates. *)
Definition new_participant (data : ParticipantInit.t) (participant_id : string)
    (starting_x starting_y created_at : Z) : dict :=
  list_to_map [
    ("participant_id", VStr participant_id);
    ("username", VStr (ParticipantInit.username data));
    ("event_code", VStr (ParticipantInit.event_code data));
    ("project_id", value_of_str (ParticipantInit.project_id data));
    ("x", VInt starting_x);
    ("y", VInt starting_y);
    ("location_confirmed", VBool false);
    ("portrait_url", VNone);
    ("icon_url", VNone);
    ("suit_color", VNone);
    ("appearance", VNone);
    ("registered_at", VNone);
    ("created_at", VTime created_at);
    ("active", VBool true) ].

Definition init_participant (data : ParticipantInit.t)
  : prog ParticipantInitResponse.t :=
  let event_code := ParticipantInit.event_code data in
  let username := ParticipantInit.username data in
  event <- await GetEvent event_code;;
  match py_found event with
  | None => Raise (HTTPException 404 "Event not found")
  | Some event =>
  if negb (event_active event)
  then Raise (HTTPException 410 "Event has ended") else
  match event_full event with
  | None => Raise TypeError
  | Some true => Raise (HTTPException 409 "Event is full")
  | Some false =>
  taken <- await CheckUsernameExists event_code username;;
  if taken then Raise (HTTPException 409 "Username already taken") else
  participant_id <- call TokenHex 4;;
  starting_x <- call RandInt 10 (MAP_WIDTH - 10);;
  starting_y <- call RandInt 10 (MAP_HEIGHT - 10);;
  created_at <- call UtcNow;;
  let participant :=
    new_participant data participant_id starting_x starting_y created_at in
  await CreateParticipant participant;;
  Ret (ParticipantInitResponse.mk participant_id username event_code
         starting_x starting_y)
  end
  end.

Definition allowed_type (content_type : option string) : bool :=
  match content_type with
  | Some t => str_in_list t ["image/png"; "image/jpeg"]
  | None => false
  end.

(** The validation loop of [upload_avatar]: the first file of a type
    outside the list raises. *)
Fixpoint check_types (files : list (UploadFile.t * string)) : option exn :=
  match files with
  | [] => None
  | (file, name) :: rest =>
      if allowed_type (UploadFile.content_type file) then check_types rest
      else Some (HTTPException 400
                   ("Invalid " +:+ name +:+ " file type. Must be PNG or JPEG."))
  end.

Definition upload_avatar (participant_id : string)
    (portrait icon : UploadFile.t) : prog dict :=
  participant <- await GetParticipant participant_id;;
  match py_found participant with
  | None => Raise not_found
  | Some participant =>
  match check_types [(portrait, "portrait"); (icon, "icon")] with
  | Some e => Raise e
  | None =>
  match participant !! "event_code" with
  | None => Raise (KeyError "event_code")
  | Some event_code =>
  let portrait_path :=
    "avatars/" +:+ fstr event_code +:+ "/" +:+ participant_id +:+ "/portrait.png" in
  await UploadAvatarImage portrait_path (UploadFile.content portrait)
                          (UploadFile.content_type portrait);;
  let portrait_url := get_avatar_url portrait_path in
  let icon_path :=
    "avatars/" +:+ fstr event_code +:+ "/" +:+ participant_id +:+ "/icon.png" in
  await UploadAvatarImage icon_path (UploadFile.content icon)
                          (UploadFile.content_type icon);;
  let icon_url := get_avatar_url icon_path in
  await UpdateParticipant participant_id (list_to_map [
    ("portrait_url", VStr portrait_url);
    ("icon_url", VStr icon_url) ]);;
  Ret (list_to_map [
    ("status", VStr "success");
    ("portrait_url", VStr portrait_url);
    ("icon_url", VStr icon_url) ])
  end
  end
  end.

(** [if data.suit_color:] on an optional [str]. *)
Definition supplied (o : option string) : bool := truthy (value_of_str o).

(** The [updates] dict [register_participant] builds: the stamp, the flag,
    and the two optional fields when they are supplied. *)
Definition registration_updates (now : Z) (data : ParticipantRegister.t)
  : dict :=
  let updates : dict := list_to_map [
    ("registered_at", VTime now);
    ("active", VBool true) ] in
  let updates :=
    if supplied (ParticipantRegister.suit_color data)
    then <["suit_color" := value_of_str (ParticipantRegister.suit_color data)]> updates
    else updates in
  if supplied (ParticipantRegister.appearance data)
  then <["appearance" := value_of_str (ParticipantRegister.appearance data)]> updates
  else updates.

Definition register_participant (data : ParticipantRegister.t)
  : prog ParticipantResponse.t :=
  let participant_id := ParticipantRegister.participant_id data in
  participant <- await GetParticipant participant_id;;
  match py_found participant with
  | None => Raise not_found
  | Some participant =>
  if negb (truthy (py_get participant "portrait_url"))
     || negb (truthy (py_get participant "icon_url"))
  then Raise (HTTPException 400 "Avatar must be uploaded before registration")
  else
  now <- call UtcNow;;
  let updates := registration_updates now data in
  await UpdateParticipant participant_id updates;;
  updated <- await GetParticipant participant_id;;
  match updated with
  | None => Raise TypeError
  | Some updated => validated (ParticipantResponse.construct updated)
  end
  end.

(** The extension [upload_evidence] picks from the declared content type.
    [None] stands for the [TypeError] of the [in] test on a file that
    declares no type. *)
Definition extension_of (content_type : option string) : option string :=
  match content_type with
  | None => None
  | Some t =>
      Some (if str_in "video" t then "mp4"
            else if str_in "png" t then "png"
            else "jpg")
  end.

Definition evidence_path (event_code : value) (participant_id filename ext : string)
  : string :=
  "evidence/" +:+ fstr event_code +:+ "/" +:+ participant_id +:+ "/"
  +:+ filename +:+ "." +:+ ext.

(** [urls[key] = url] on a dict kept in insertion order. *)
Fixpoint set_item (urls : list (string * string)) (key url : string)
  : list (string * string) :=
  match urls with
  | [] => [(key, url)]
  | (k, v) :: rest =>
      if String.eqb k key then (k, url) :: rest
      else (k, v) :: set_item rest key url
  end.

(** The upload loop of [upload_evidence] over [evidence_files]. *)
Fixpoint upload_each (event_code : value) (participant_id : string)
    (evidence_files : list (UploadFile.t * string * string))
    (urls : list (string * string)) : prog (list (string * string)) :=
  match evidence_files with
  | [] => Ret urls
  | (file, filename, url_key) :: rest =>
      let file_bytes := UploadFile.content file in
      match extension_of (UploadFile.content_type file) with
      | None => Raise TypeError
      | Some ext =>
          let path := evidence_path event_code participant_id filename ext in
          await UploadAvatarImage path file_bytes (UploadFile.content_type file);;
          upload_each event_code participant_id rest
                      (set_item urls url_key (get_avatar_url path))
      end
  end.

Definition upload_evidence (participant_id : string)
    (soil_sample star_field flora_recording : UploadFile.t) : prog dict :=
  participant <- await GetParticipant participant_id;;
  match py_found participant with
  | None => Raise not_found
  | Some participant =>
  match participant !! "event_code" with
  | None => Raise (KeyError "event_code")
  | Some event_code =>
  let evidence_files := [
    (soil_sample, "soil_sample", "soil");
    (star_field, "star_field", "stars");
    (flora_recording, "flora_recording", "flora") ] in
  bind (upload_each event_code participant_id evidence_files []) (λ urls,
  await UpdateParticipant participant_id
    (list_to_map [("evidence_urls", VDict urls)]);;
  Ret (list_to_map [
    ("status", VStr "success");
    ("evidence_urls", VDict urls) ]))
  end
  end.

Definition confirm_location (participant_id : string) (x y : Z) : prog dict :=
  participant <- await GetParticipant participant_id;;
  match py_found participant with
  | None => Raise not_found
  | Some _ =>
  await UpdateParticipant participant_id (list_to_map [
    ("x", VInt x);
    ("y", VInt y);
    ("location_confirmed", VBool true) ]);;
  Ret (list_to_map [
    ("status", VStr "success");
    ("x", VInt x);
    ("y", VInt y);
    ("location_confirmed", VBool true) ])
  end.

(** The dict comprehension of [update_participant_details]: the items of
    the payload whose value is not [None]. *)
Definition provided (kv : string * value) : bool :=
  match kv.2 with VNone => false | _ => true end.

Definition update_data_of (updates : ParticipantUpdate.t) : dict :=
  list_to_map (List.filter provided (ParticipantUpdate.items updates)).

Definition update_participant_details (participant_id : string)
    (updates : ParticipantUpdate.t) : prog ParticipantResponse.t :=
  participant <- await GetParticipant participant_id;;
  match py_found participant with
  | None => Raise not_found
  | Some participant =>
  let update_data := update_data_of updates in
  if decide (update_data = ∅)
  then validated (ParticipantResponse.construct participant)
  else
  await UpdateParticipant participant_id update_data;;
  updated <- await GetParticipant participant_id;;
  match updated with
  | None => Raise TypeError
  | Some updated => validated (ParticipantResponse.construct updated)
  end
  end.

(** The operations on one participant after its creation, with their
    payloads, and a request for one of them run to completion. *)
Inductive operation :=
| UploadAvatar (portrait icon : UploadFile.t)
| Register (suit_color appearance : option string)
| UploadEvidence (soil_sample star_field flora_recording : UploadFile.t)
| ConfirmLocation (x y : Z)
| Override (updates : ParticipantUpdate.t).

Definition request (participant_id : string) (o : operation) (w : world)
  : world :=
  match o with
  | UploadAvatar portrait icon =>
      (run w (upload_avatar participant_id portrait icon)).1
  | Register suit_color appearance =>
      (run w (register_participant
                (ParticipantRegister.mk participant_id suit_color appearance))).1
  | UploadEvidence soil_sample star_field flora_recording =>
      (run w (upload_evidence participant_id soil_sample star_field
                              flora_recording)).1
  | ConfirmLocation x y => (run w (confirm_location participant_id x y)).1
  | Override updates =>
      (run w (update_participant_details participant_id updates)).1
  end.

Definition requests (participant_id : string) (ops : list operation)
    (w : world) : world :=
  fold_left (λ w o, request participant_id o w) ops w.

End Routes.

(** The stored value of a participant's field, [None] when there is no such
    participant or no such field. *)
Definition field_of (w : world) (participant_id key : string) : option value :=
  participants (db w) !! participant_id ≫= (.!! key).

(** The empty payload of an override, and the payload that only sets
    [level_2_complete]. *)
Definition no_updates : ParticipantUpdate.t :=
  ParticipantUpdate.mk None None None None None None None.

Definition only_level_2 (b : bool) : ParticipantUpdate.t :=
  ParticipantUpdate.mk None None (Some b) None None None None.

(** ** The Level 1 evidence generator ([generate_evidence.py]) *)

Module Evidence.

(** The prompts of each biome, keyed by the label [get_biome] returns. *)
Definition BIOME_EVIDENCE : gmap string (gmap string string) :=
  list_to_map [
    ("CRYO", list_to_map [
      ("soil_prompt",
"Create a close-up photograph of an alien soil sample from a frozen world.

CRITICAL VISUAL REQUIREMENTS:
- Frozen methane ice crystals embedded in pale blue-white soil
- Crystalline formations with sharp geometric structures
- Frost patterns and ice veins running through the sample
- Cold color palette: ice blue, white, pale silver, hints of cyan
- Glistening, reflective surfaces suggesting extreme cold
- Some darker rocky material visible beneath the ice layer

STYLE:
- Scientific specimen photography style
- Macro close-up, detailed textures visible
- Soft diffused lighting to show ice transparency
- Clean composition, sample fills most of frame
- Photorealistic but clearly alien/otherworldly

This is evidence from a crash site on a frozen alien world.");
      ("flora_prompt",
"Create a short video clip of alien flora in a frozen environment.

VISUAL REQUIREMENTS:
- Crystalline frost ferns with delicate ice-like fronds
- Plants that appear made of living ice, semi-transparent
- Gentle swaying motion as if in cold wind
- Occasional ice particles or snow drifting past
- Color palette: ice blue, white, pale cyan, silver
- Bioluminescent blue glow from within some plants
- Frozen landscape visible in background

AUDIO REQUIREMENTS:
- Howling cold wind, hollow and resonant
- Crystalline chiming sounds as ice plants move
- Crackling ice sounds, subtle
- Ethereal, cold atmosphere
- No warm or organic sounds

STYLE:
- Dreamy, ethereal, beautiful but harsh
- Slow, contemplative movement

This is flora from a frozen alien biome.");
      ("star_prompt",
"Create a night sky photograph from a frozen alien planet.

CRITICAL VISUAL REQUIREMENTS:
- Dominant blue giant star, very large and bright, blue-white color
- Ice-blue nebula stretching across part of the sky
- Stars with a cold color temperature (white, blue)
- Wispy aurora-like formations in cyan and white
- Dark sky contrasting with bright stellar objects
- Perhaps distant ice formations silhouetted at bottom edge

STYLE:
- Astrophotography style, deep space feel
- Rich detail in nebula and star field
- Cold, crystalline beauty
- Awe-inspiring but harsh

This is the night sky from a frozen alien world's surface.") ]);
    ("VOLCANIC", list_to_map [
      ("soil_prompt",
"Create a close-up photograph of an alien soil sample from a volcanic world.

CRITICAL VISUAL REQUIREMENTS:
- Black obsidian chunks and volcanic glass
- Veins of cooling magma, glowing orange-red
-ite formations andite rocky structures
- Dark charred soil with ember-like particles
- Color palette: black, deep red, orange, glowing yellow
- Heat shimmer effect on some surfaces
- Crystallized lava formations

STYLE:
- Scientific specimen photography style
- Macro close-up, detailed textures visible
- Dramatic lighting suggesting internal heat
- Clean composition, sample fills most of frame
- Photorealistic but clearly alien/otherworldly

This is evidence from a crash site on a volcanic alien world.");
      ("flora_prompt",
"Create a short video clip of alien flora in a volcanic environment.

VISUAL REQUIREMENTS:
- Fire blooms: flowers that seem made of flame, petals like fire
- Heat-resistant plants with dark, armored surfaces
- Ember-like spores or particles floating upward
- Plants that glow from within with orange-red light
- Color palette: black, deep red, orange, yellow flames
- Heat distortion/shimmer in the air
- Volcanic landscape visible in background, maybe distant lava

AUDIO REQUIREMENTS:
- Deep rumbling, volcanic activity
- Crackling fire sounds
- Hissing steam vents
- Occasional distant explosions or eruptions
- Warm, intense atmospheric sounds

STYLE:
- Dramatic, intense, dangerous beauty
- Dynamic movement from heat currents

This is flora from a volcanic alien biome.");
      ("star_prompt",
"Create a night sky photograph from a volcanic alien planet.

CRITICAL VISUAL REQUIREMENTS:
- Red dwarf binary star system - two reddish stars close together
- Orange and red nebula dominating part of the sky
- Warm color temperature throughout (red, orange, yellow stars)
- Smoke or ash particles in the atmosphere creating haze
- Distant volcanic glow on the horizon
- Stars appear to flicker through the heated atmosphere

STYLE:
- Astrophotography style with atmospheric effects
- Warm, intense colors
- Dramatic and foreboding
- Heat distortion effects

This is the night sky from a volcanic alien world's surface.") ]);
    ("BIOLUMINESCENT", list_to_map [
      ("soil_prompt",
"Create a close-up photograph of an alien soil sample from a bioluminescent world.

CRITICAL VISUAL REQUIREMENTS:
- Phosphorescent minerals that glow purple and green
- Organic luminescent material mixed with soil
- Glowing veins running through darker earth
- Mushroom-like growths with internal light
- Color palette: deep purple, electric green, cyan glow, dark earth
- Particles that emit soft light
- Wet, organic texture suggesting rich biology

STYLE:
- Scientific specimen photography style
- Macro close-up, detailed textures visible
- Lighting that shows the bioluminescence clearly
- Clean composition, sample fills most of frame
- Photorealistic but clearly alien/otherworldly

This is evidence from a crash site on a bioluminescent alien world.");
      ("flora_prompt",
"Create a short video clip of alien flora in a bioluminescent environment.

VISUAL REQUIREMENTS:
- Glowing fungi clusters pulsing with soft light
- Bioluminescent plants in purple, green, and cyan
- Floating luminescent spores drifting through air
- Plants that pulse rhythmically, like breathing
- Color palette: deep purple, electric green, cyan, soft pink glow
- Dark environment lit only by the organisms
- Ethereal, dreamlike atmosphere

AUDIO REQUIREMENTS:
- Deep crystalline humming, resonant
- Soft chiming sounds, like glass wind chimes
- Gentle pulsing tones matching the light rhythm
- Ethereal, otherworldly ambient sounds
- Peaceful but alien atmosphere

STYLE:
- Dreamy, magical, bioluminescent beauty
- Slow pulsing movements, hypnotic

This is flora from a bioluminescent alien biome.");
      ("star_prompt",
"Create a night sky photograph from a bioluminescent alien planet.

CRITICAL VISUAL REQUIREMENTS:
- Green pulsar star visible, with rhythmic brightness variation
- Purple and magenta nebula swirling in the sky
- Stars in unusual colors (green, purple, cyan)
- Bioluminescent glow from the ground illuminating lower sky
- Ethereal, dreamlike quality
- Perhaps luminescent clouds or atmospheric organisms

STYLE:
- Astrophotography style with fantasy elements
- Rich purples, greens, and cyans
- Magical and mysterious
- Soft, glowing quality throughout

This is the night sky from a bioluminescent alien world's surface.") ]);
    ("FOSSILIZED", list_to_map [
      ("soil_prompt",
"Create a close-up photograph of an alien soil sample from an ancient fossilized world.

CRITICAL VISUAL REQUIREMENTS:
- Amber deposits with preserved ancient matter inside
- Fossilized remains of unknown organisms
- Golden and brown crystalline formations
- Ancient petrified organic material
- Color palette: amber, gold, deep brown, cream, bronze
- Layered sedimentary patterns showing age
- Jewel-like quality to the amber sections

STYLE:
- Scientific specimen photography style
- Macro close-up, detailed textures visible
- Warm lighting enhancing golden tones
- Clean composition, sample fills most of frame
- Photorealistic but clearly alien/otherworldly

This is evidence from a crash site on an ancient fossilized alien world.");
      ("flora_prompt",
"Create a short video clip of alien flora in a fossilized/ancient environment.

VISUAL REQUIREMENTS:
- Petrified spiral trees, partially crystallized
- Ancient plants that move very slowly, almost frozen in time
- Amber-like sap dripping in slow motion
- Plants with golden, bronze, and brown coloring
- Some living growth on ancient petrified structures
- Dust motes floating in golden light
- Ancient, preserved landscape

AUDIO REQUIREMENTS:
- Deep resonant tones, ancient and slow
- Crystalline sounds, mineral-like
- Slow creaking of ancient growth
- Wind through petrified forests
- Timeless, eternal atmosphere

STYLE:
- Ancient, preserved, timeless beauty
- Very slow movements suggesting geological time

This is flora from an ancient fossilized alien biome.");
      ("star_prompt",
"Create a night sky photograph from an ancient fossilized alien planet.

CRITICAL VISUAL REQUIREMENTS:
- Yellow sun-like star, stable and warm
- Golden nebula with ancient, stable formations
- Stars in warm colors (yellow, gold, amber)
- Clear, stable atmosphere with excellent visibility
- Ancient, unchanging quality to the sky
- Perhaps visible rings or old planetary debris

STYLE:
- Astrophotography style, classical beauty
- Warm golden and amber tones
- Timeless and eternal feeling
- Peaceful and stable

This is the night sky from an ancient fossilized alien world's surface.") ]) ].

(** [BIOME_EVIDENCE[biome]] followed by [prompts[key]]: either subscript
    raises [KeyError] on a key that is not there. *)
Definition prompt (biome key : string) : exn + string :=
  match BIOME_EVIDENCE !! biome with
  | None => inl (KeyError biome)
  | Some prompts =>
      match prompts !! key with
      | None => inl (KeyError key)
      | Some text => inr text
      end
  end.

(** What [generate_images] sends to its chat session, in order: the soil
    prompt and then the star prompt of the biome.  (The model calls and the
    files they produce are outside the embedding.) *)
Definition image_prompts (biome : string) : exn + (string * string) :=
  match BIOME_EVIDENCE !! biome with
  | None => inl (KeyError biome)
  | Some prompts =>
      match prompts !! "soil_prompt" with
      | None => inl (KeyError "soil_prompt")
      | Some soil =>
          match prompts !! "star_prompt" with
          | None => inl (KeyError "star_prompt")
          | Some star => inr (soil, star)
          end
      end
  end.

(** The prompt [generate_flora_video] sends. *)
Definition flora_prompt (biome : string) : exn + string :=
  match BIOME_EVIDENCE !! biome with
  | None => inl (KeyError biome)
  | Some prompts =>
      match prompts !! "flora_prompt" with
      | None => inl (KeyError "flora_prompt")
      | Some text => inr text
      end
  end.

(** [s.endswith(suffix)]. *)
Fixpoint ends_with (s suffix : string) : bool :=
  String.eqb s suffix ||
  match s with
  | EmptyString => false
  | String _ rest => ends_with rest suffix
  end.

(** [os.path.basename(path)] on a POSIX path: what follows the last slash. *)
Fixpoint basename (path : string) : string :=
  match path with
  | EmptyString => EmptyString
  | String c rest =>
      if str_in "/" rest then basename rest
      else if Ascii.eqb c "/" then rest
      else path
  end.

(** The content type the client's [upload_evidence] declares for the flora
    file. *)
Definition flora_content_type (flora_path : string) : string :=
  if ends_with flora_path ".mp4" then "video/mp4" else "image/png".

(** The [files] of the client's [upload_evidence]: per form field, the file
    name and the content type it declares. *)
Definition files (flora_path : string) : list (string * (string * string)) :=
  [ ("soil_sample", ("soil_sample.png", "image/png"));
    ("star_field", ("star_field.png", "image/png"));
    ("flora_recording", (basename flora_path, flora_content_type flora_path)) ].

(** The paths [main] hands to [upload_evidence]: what [generate_images] and
    [generate_flora_video] return, under [OUTPUTS_DIR]. *)
Definition OUTPUTS_DIR : string := "outputs".

Definition path_join (dir name : string) : string := dir +:+ "/" +:+ name.

Definition soil_path : string := path_join OUTPUTS_DIR "soil_sample.png".
Definition star_path : string := path_join OUTPUTS_DIR "star_field.png".
Definition flora_path : string := path_join OUTPUTS_DIR "flora_recording.mp4".

End Evidence.

(** ** The star catalog ([setup_star_catalog.py]) *)

Module StarCatalog.

Record row := mk {
  primary_star : string;
  nebula_type : string;
  stellar_color : string;
  quadrant : string;
  biome : string;
}.

Definition STAR_CATALOG_DATA : list row := [
  mk "blue_giant" "ice_blue" "blue_white" "NW" "CRYO";
  mk "blue_giant" "crystalline" "blue_white" "NW" "CRYO";
  mk "blue_supergiant" "ice_blue" "cyan" "NW" "CRYO";
  mk "red_dwarf" "orange_red" "red_orange" "NE" "VOLCANIC";
  mk "red_dwarf_binary" "fire" "red_orange" "NE" "VOLCANIC";
  mk "red_giant" "orange_red" "deep_red" "NE" "VOLCANIC";
  mk "green_pulsar" "purple_magenta" "green_purple" "SW" "BIOLUMINESCENT";
  mk "pulsar" "purple" "green" "SW" "BIOLUMINESCENT";
  mk "magnetar" "bioluminescent" "cyan_purple" "SW" "BIOLUMINESCENT";
  mk "yellow_sun" "golden" "yellow_gold" "SE" "FOSSILIZED";
  mk "yellow_dwarf" "amber" "warm_yellow" "SE" "FOSSILIZED";
  mk "orange_sun" "golden_brown" "amber" "SE" "FOSSILIZED" ].

(** The rows of the catalog for a biome. *)
Definition patterns (label : string) : list row :=
  List.filter (λ r, String.eqb (biome r) label) STAR_CATALOG_DATA.

End StarCatalog.

(** The quadrant of a point as the docstring of [get_biome] names it:
    north is [y >= 50], west is [x < 50]. *)
Definition compass (x y : Z) : string :=
  (if y >=? 50 then "N" else "S") +:+ (if x <? 50 then "W" else "E").

(** ** Vocabulary of the properties *)

(** A field is null when the document has no such key or holds [None]
    under it, and a URL is present when the field holds a non-empty
    string. *)
Definition null (v : option value) : Prop := v = None ∨ v = Some VNone.

Definition present (v : option value) : Prop :=
  ∃ url, v = Some (VStr url) ∧ url ≠ "".

(** A response with [level_2_complete] replaced. *)
Definition with_level_2_complete (b : option bool) (r : ParticipantResponse.t)
  : ParticipantResponse.t :=
  let 'ParticipantResponse.mk participant_id username event_code x y
        location_confirmed portrait_url icon_url suit_color registered_at
        active evidence_urls l0 l1 _ l3 l4 l5 := r in
  ParticipantResponse.mk participant_id username event_code x y
    location_confirmed portrait_url icon_url suit_color registered_at
    active evidence_urls l0 l1 b l3 l4 l5.

(** A response with the fields a registration writes replaced. *)
Definition with_registration (now : Z) (suit : option string)
    (r : ParticipantResponse.t) : ParticipantResponse.t :=
  let 'ParticipantResponse.mk participant_id username event_code x y
        location_confirmed portrait_url icon_url suit_color _
        _ evidence_urls l0 l1 l2 l3 l4 l5 := r in
  ParticipantResponse.mk participant_id username event_code x y
    location_confirmed portrait_url icon_url
    (if supplied suit then suit else suit_color) (Some now)
    true evidence_urls l0 l1 l2 l3 l4 l5.

(** Every call a route can make, whatever it is answered, satisfies [P]. *)
Inductive calls_only {A} (P : call → Prop) : prog A → Prop :=
| only_ret a : calls_only P (Ret a)
| only_raise e : calls_only P (Raise e)
| only_do c k : P c → (∀ r, calls_only P (k r)) → calls_only P (Do c k).

(** A call that cannot change the field [key] of a stored participant: no
    creation, and no update that names the field. *)
Definition spares (key : string) (c : call) : Prop :=
  match c with
  | CreateParticipant _ => False
  | UpdateParticipant _ updates => updates !! key = None
  | _ => True
  end.

Definition is_register (o : operation) : bool :=
  match o with Register _ _ => true | _ => false end.

(** The fields of the participant's record an operation may write. *)
Definition written_by (o : operation) : list string :=
  match o with
  | UploadAvatar _ _ => ["portrait_url"; "icon_url"]
  | Register _ _ => ["registered_at"; "active"; "suit_color"; "appearance"]
  | UploadEvidence _ _ _ => ["evidence_urls"]
  | ConfirmLocation _ _ => ["x"; "y"; "location_confirmed"]
  | Override updates => (ParticipantUpdate.items updates).*1
  end.


(** A call that can change, of the stored participants, only the record of
    [pid], and no event: no creation, and no update of another record. *)
Definition targets (pid : string) (c : call) : Prop :=
  match c with
  | CreateParticipant _ => False
  | UpdateParticipant participant_id _ => participant_id = pid
  | _ => True
  end.

(** The fields [init_participant] writes once and no later operation
    names. *)
Definition identity_fields : list string :=
  ["participant_id"; "username"; "event_code"; "project_id"; "created_at"].

(** The field of an override payload stored under a key, as a value. *)
Definition payload_field (updates : ParticipantUpdate.t) (key : string)
  : option value :=
  (list_to_map (ParticipantUpdate.items updates) : dict) !! key.

(** ** Scenarios

    A small deployment on which the properties are exercised: a map of 100
    by 100, a full event [E1] and an open event [E2], one participant who
    has not uploaded an avatar yet and one who has. *)

Definition example_url (path : string) : string :=
  "https://storage.example/" +:+ path.

Definition example_format (v : value) : string :=
  match v with
  | VNone => "None"
  | VBool true => "True"
  | VBool false => "False"
  | _ => "?"
  end.

Definition example_oracle : oracle :=
  mk_oracle (λ n, match n with O => "9f3c2a1b" | _ => "04d7e6a5" end)
            (λ n, 37 * Z.of_nat n + 5)
            (λ n, 1000 + Z.of_nat n).

Definition full_event : dict :=
  list_to_map [("code", VStr "E1"); ("active", VBool true);
               ("participant_count", VInt 2); ("max_participants", VInt 2)].

Definition open_event : dict :=
  list_to_map [("code", VStr "E2"); ("active", VBool true);
               ("participant_count", VInt 2); ("max_participants", VInt 50)].

Definition alice : dict :=
  new_participant (ParticipantInit.mk "E2" "alice" None) "a1b2c3d4" 42 58 900.

Definition carol : dict :=
  <["portrait_url" := VStr (example_url "avatars/E2/0badcafe/portrait.png")]>
    (<["icon_url" := VStr (example_url "avatars/E2/0badcafe/icon.png")]>
       (new_participant (ParticipantInit.mk "E2" "carol" None)
                        "0badcafe" 17 33 950)).

Definition example_world : world :=
  mk_world
    (mk_database
       (list_to_map [("E1", full_event); ("E2", open_event)])
       (list_to_map [("a1b2c3d4", alice); ("0badcafe", carol)]))
    ∅ example_oracle 0 [].

Definition bob : ParticipantInit.t := ParticipantInit.mk "E2" "bob" None.

Definition png_file : UploadFile.t :=
  UploadFile.mk (Some "image/png") [Byte.x89; Byte.x50; Byte.x4e; Byte.x47].

Definition mp4_file : UploadFile.t :=
  UploadFile.mk (Some "video/mp4") [Byte.x00; Byte.x00; Byte.x00; Byte.x18].

Definition jpeg_file : UploadFile.t :=
  UploadFile.mk (Some "image/jpeg") [Byte.xff; Byte.xd8; Byte.xff].

(** Carol registers, and then registers again. *)
Definition registered_once : world :=
  request example_url example_format "0badcafe" (Register None None)
          example_world.

Definition registered_twice : world :=
  request example_url example_format "0badcafe" (Register None None)
          registered_once.

(** A GIF file and a file that declares no type. *)
Definition gif_file : UploadFile.t :=
  UploadFile.mk (Some "image/gif") [Byte.x47; Byte.x49; Byte.x46].

Definition untyped_file : UploadFile.t := UploadFile.mk None [Byte.x00].

(** An event document that only carries its code, and a deployment with
    this event and no participant. *)
Definition bare_event : dict := list_to_map [("code", VStr "E3")].

Definition bare_world : world :=
  mk_world (mk_database (list_to_map [("E3", bare_event)]) ∅)
           ∅ example_oracle 0 [].

Definition dave : ParticipantInit.t := ParticipantInit.mk "E3" "dave" None.

(** An event that has ended, and is full as well, in a deployment where
    erin already takes part in it. *)
Definition ended_event : dict :=
  list_to_map [("code", VStr "E4"); ("active", VBool false);
               ("participant_count", VInt 2); ("max_participants", VInt 2)].

Definition erin : dict :=
  new_participant (ParticipantInit.mk "E4" "erin" None) "5e5e5e5e" 20 20 800.

Definition ended_world : world :=
  mk_world
    (mk_database (list_to_map [("E4", ended_event)])
                 (list_to_map [("5e5e5e5e", erin)]))
    ∅ example_oracle 0 [].

(** * Properties *)

(** ** Biome mapping *)

Section BiomeFacts.
Import Biome.

Ltac biome_cases x y :=
  unfold get_biome;
  destruct (Z.ltb_spec x 50), (Z.geb_spec x 50),
           (Z.ltb_spec y 50), (Z.geb_spec y 50);
  simpl; try lia.

Lemma get_biome_cryo x y : get_biome x y = "CRYO" ↔ x < 50 ∧ y >= 50.
Proof. biome_cases x y; split; (discriminate || lia || auto). Qed.

Lemma get_biome_volcanic x y :
  get_biome x y = "VOLCANIC" ↔ x >= 50 ∧ y >= 50.
Proof. biome_cases x y; split; (discriminate || lia || auto). Qed.

Lemma get_biome_bioluminescent x y :
  get_biome x y = "BIOLUMINESCENT" ↔ x < 50 ∧ y < 50.
Proof. biome_cases x y; split; (discriminate || lia || auto). Qed.

Lemma get_biome_fossilized x y :
  get_biome x y = "FOSSILIZED" ↔ x >= 50 ∧ y < 50.
Proof. biome_cases x y; split; (discriminate || lia || auto). Qed.

Lemma biomes_distinct : NoDup biomes.
Proof. by apply (bool_decide_unpack _). Qed.

Lemma get_biome_in_biomes x y : get_biome x y ∈ biomes.
Proof. biome_cases x y; by apply (bool_decide_unpack _). Qed.

Variables MAP_WIDTH MAP_HEIGHT : Z.

(** C1.  On every integer pair inside the map, [get_biome] returns one of
    the four labels, which are pairwise different, and the label is fixed
    by the side of the midpoint 50 each coordinate lies on: low x and high
    y is CRYO, high x and high y is VOLCANIC, low x and low y is
    BIOLUMINESCENT, high x and low y is FOSSILIZED.  Equal inputs give
    equal labels, and the four quadrant representatives (10, 90), (90, 90),
    (10, 10), (90, 10) get four different labels. *)
Theorem get_biome_partitions_map (x y : Z) :
  0 <= x <= MAP_WIDTH → 0 <= y <= MAP_HEIGHT →
  get_biome x y ∈ biomes ∧ NoDup biomes
  ∧ (get_biome x y = "CRYO" ↔ x < 50 ∧ y >= 50)
  ∧ (get_biome x y = "VOLCANIC" ↔ x >= 50 ∧ y >= 50)
  ∧ (get_biome x y = "BIOLUMINESCENT" ↔ x < 50 ∧ y < 50)
  ∧ (get_biome x y = "FOSSILIZED" ↔ x >= 50 ∧ y < 50)
  ∧ (∀ x' y', x' = x → y' = y → get_biome x' y' = get_biome x y)
  ∧ [get_biome 10 90; get_biome 90 90; get_biome 10 10; get_biome 90 10]
    = ["CRYO"; "VOLCANIC"; "BIOLUMINESCENT"; "FOSSILIZED"].
Proof.
  intros _ _.
  split; [apply get_biome_in_biomes|].
  split; [apply biomes_distinct|].
  split; [apply get_biome_cryo|].
  split; [apply get_biome_volcanic|].
  split; [apply get_biome_bioluminescent|].
  split; [apply get_biome_fossilized|].
  split; [by intros ?? -> ->|reflexivity].
Qed.

(** C10.  [get_biome] is defined on every pair of integers, inside the map
    or not: it always returns one of the four labels, and the final [else]
    is taken exactly when none of the three tests before it holds, which
    is the quadrant of high x and low y. *)
Theorem get_biome_total (x y : Z) :
  get_biome x y ∈ biomes
  ∧ (get_biome x y = "FOSSILIZED"
     ↔ ¬ (x < 50 ∧ y >= 50) ∧ ¬ (x >= 50 ∧ y >= 50) ∧ ¬ (x < 50 ∧ y < 50))
  ∧ get_biome (-7) (-3) = "BIOLUMINESCENT"
  ∧ get_biome (-7) 1000 = "CRYO"
  ∧ get_biome 1000 1000 = "VOLCANIC"
  ∧ get_biome 1000 (-3) = "FOSSILIZED".
Proof.
  split; [apply get_biome_in_biomes|].
  split; [|by repeat split].
  rewrite get_biome_fossilized. lia.
Qed.

End BiomeFacts.

(** The point (10, 90) of a map of 100 by 100 lies in the CRYO quadrant. *)
Lemma get_biome_partitions_map_witness :
  0 <= 10 <= 100 ∧ 0 <= 90 <= 100
  ∧ Biome.get_biome 10 90 ∈ Biome.biomes
  ∧ (Biome.get_biome 10 90 = "CRYO" ↔ 10 < 50 ∧ 90 >= 50).
Proof.
  split; [lia|]. split; [lia|].
  destruct (get_biome_partitions_map 100 100 10 90) as (H1 & _ & H2 & _);
    [lia | lia |].
  exact (conj H1 H2).
Defined.

(** ** Running the routes *)

Section RouteFacts.

Variables MAP_WIDTH MAP_HEIGHT : Z.
Variable get_avatar_url : string → string.
Variable py_format : value → string.

Ltac lookups :=
  repeat first
    [ rewrite lookup_insert_eq
    | rewrite lookup_insert_ne by discriminate ].

(** Decides a closed proposition by evaluation. *)
Ltac closed := by apply (bool_decide_unpack _).

(** Reads the fields of a response off the hypothesis that it validates. *)
Ltac fields H :=
  unfold ParticipantResponse.construct in H;
  repeat match type of H with
  | (?o ≫= _) = Some _ =>
      let E := fresh "E" in
      destruct o eqn:E; simpl in H; [|discriminate H]
  end.

Ltac refield :=
  unfold ParticipantResponse.construct; lookups;
  repeat match goal with E : _ = Some _ |- _ => rewrite E; clear E end;
  simpl.

Lemma py_found_some (p : dict) : p ≠ ∅ → py_found (Some p) = Some p.
Proof. intros H. unfold py_found. by destruct (decide (p = ∅)). Qed.

Lemma run_validated {A} w (o : option A) :
  run w (validated o)
  = (w, match o with Some a => Returned a | None => Failed ValidationError end).
Proof. by destruct o. Qed.

Lemma merge_update_empty (old : dict) : Database.merge_update ∅ old = old.
Proof.
  unfold Database.merge_update. by rewrite map_filter_empty, (left_id_L ∅ (∪)).
Qed.

Lemma merge_update_insert (k : string) (v : value) (m old : dict) :
  v ≠ VNone →
  Database.merge_update (<[k := v]> m) old
  = <[k := v]> (Database.merge_update m old).
Proof.
  intros Hv. unfold Database.merge_update.
  by rewrite map_filter_insert_True, insert_union_l.
Qed.

Lemma merge_update_spares (k : string) (partial old : dict) :
  partial !! k = None → Database.merge_update partial old !! k = old !! k.
Proof.
  intros Hk. unfold Database.merge_update.
  rewrite lookup_union_r; [done|].
  apply map_lookup_filter_None. left. done.
Qed.

Lemma construct_level_2 (p : dict) (r : ParticipantResponse.t) (b : bool) :
  ParticipantResponse.construct p = Some r →
  ParticipantResponse.construct (<["level_2_complete" := VBool b]> p)
  = Some (with_level_2_complete (Some b) r).
Proof. intros H. fields H. refield. by simplify_eq. Qed.

(** C7.  An override with an empty payload (every field null) on an
    existing participant makes one call, the fetch of the record: it writes
    nothing, leaves the world as it was apart from the logged read, and
    answers what a plain fetch of the participant answers, the current
    record. *)
Theorem override_empty_is_identity (w : world) (pid : string) (p : dict) :
  participants (db w) !! pid = Some p → p ≠ ∅ →
  let result := run w (update_participant_details pid no_updates) in
  result.1 = log (GetParticipant pid) w
  ∧ db result.1 = db w
  ∧ trace result.1 = (trace w ++ [GetParticipant pid])%list
  ∧ Forall (λ c, is_write c = false) [GetParticipant pid]
  ∧ result = run w (get_participant_info pid)
  ∧ (∀ r, ParticipantResponse.construct p = Some r → result.2 = Returned r).
Proof.
  intros Hp Hne. unfold update_participant_details, get_participant_info.
  cbn [run exec]. unfold Database.get_participant. cbn [db log].
  rewrite Hp, (py_found_some _ Hne).
  change (update_data_of no_updates) with (∅ : dict).
  destruct (decide _) as [_|[]]; [|done].
  rewrite run_validated. cbn.
  repeat split; [by repeat constructor|]. by intros r ->.
Qed.

(** C6.  An override whose payload only sets [level_2_complete] to true
    stores the record with that one key set: every other field of the
    record, every other participant and every event is as before, and the
    response is the previous response with [level_2_complete] replaced. *)
Theorem override_level_2_frame (w : world) (pid : string) (p : dict) :
  participants (db w) !! pid = Some p → p ≠ ∅ →
  let result := run w (update_participant_details pid (only_level_2 true)) in
  participants (db result.1)
  = <[pid := <["level_2_complete" := VBool true]> p]> (participants (db w))
  ∧ events (db result.1) = events (db w)
  ∧ field_of result.1 pid "level_2_complete" = Some (VBool true)
  ∧ (∀ k, k ≠ "level_2_complete" → field_of result.1 pid k = field_of w pid k)
  ∧ (∀ r, ParticipantResponse.construct p = Some r →
       result.2 = Returned (with_level_2_complete (Some true) r)).
Proof.
  intros Hp Hne. unfold update_participant_details.
  cbn [run exec]. unfold Database.get_participant. cbn [db log].
  rewrite Hp, (py_found_some _ Hne).
  change (update_data_of (only_level_2 true))
    with (<["level_2_complete" := VBool true]> (∅ : dict)).
  destruct (decide _) as [He|_]; [by apply insert_non_empty in He|].
  cbn [run exec]. unfold Database.update_participant, Database.get_participant.
  cbn [db log with_db participants events]. rewrite Hp.
  rewrite merge_update_insert, merge_update_empty by done.
  cbn [db log with_db participants events]. rewrite lookup_insert_eq.
  rewrite run_validated. unfold field_of.
  cbn [fst snd db log with_db participants events].
  rewrite lookup_insert_eq, Hp. cbn.
  split; [done|]. split; [done|]. split; [by rewrite lookup_insert_eq|].
  split; [intros k Hk; by rewrite lookup_insert_ne|].
  intros r Hr. by rewrite (construct_level_2 _ _ _ Hr).
Qed.


Lemma supplied_not_none (o : option string) :
  supplied o = true → value_of_str o ≠ VNone.
Proof. by destruct o. Qed.

Lemma null_falsy (p : dict) (k : string) :
  null (p !! k) → truthy (py_get p k) = false.
Proof. unfold py_get. by intros [-> | ->]. Qed.

Lemma present_truthy (p : dict) (k : string) :
  present (p !! k) → truthy (py_get p k) = true.
Proof.
  unfold py_get. intros (url & -> & Hurl). simpl.
  destruct (String.eqb_spec url ""); [done|reflexivity].
Qed.

(** The record a registration leaves, field by field. *)
Lemma registered_record (now : Z) (data : ParticipantRegister.t) (p : dict) :
  let suit := ParticipantRegister.suit_color data in
  let look := ParticipantRegister.appearance data in
  let p' := Database.merge_update (registration_updates now data) p in
  p' !! "registered_at" = Some (VTime now)
  ∧ p' !! "active" = Some (VBool true)
  ∧ p' !! "suit_color"
    = (if supplied suit then Some (value_of_str suit) else p !! "suit_color")
  ∧ p' !! "appearance"
    = (if supplied look then Some (value_of_str look) else p !! "appearance")
  ∧ (∀ k, k ∉ ["registered_at"; "active"; "suit_color"; "appearance"] →
       p' !! k = p !! k).
Proof.
  intros suit look. unfold registration_updates. fold suit look.
  rewrite !list_to_map_cons, list_to_map_nil. cbn [fst snd].
  destruct (supplied suit) eqn:Hs, (supplied look) eqn:Hl;
    rewrite ?merge_update_insert, merge_update_empty
      by (done || by apply supplied_not_none);
    lookups; (repeat split; [done..|]);
    intros k Hk;
    repeat (rewrite lookup_insert_ne; [|intros <-; apply Hk; closed]); done.
Qed.

Lemma construct_registered (now : Z) (data : ParticipantRegister.t)
    (p : dict) (r : ParticipantResponse.t) :
  ParticipantResponse.construct p = Some r →
  ParticipantResponse.construct
    (Database.merge_update (registration_updates now data) p)
  = Some (with_registration now (ParticipantRegister.suit_color data) r).
Proof.
  intros H. fields H.
  destruct (registered_record now data p) as (H1 & H2 & H3 & _ & H5).
  unfold ParticipantResponse.construct.
  rewrite H1, H2, H3, !H5 by closed.
  repeat match goal with E : _ = Some _ |- _ => rewrite E; clear E end.
  simplify_eq. simpl.
  destruct (ParticipantRegister.suit_color data) as [color|];
    unfold supplied; simpl; [|by rewrite E7].
  destruct (String.eqb color ""); simpl; [by rewrite E7|done].
Qed.

(** What a registration that passes its gate stores and answers. *)
Lemma register_stores (w : world) (data : ParticipantRegister.t) (p : dict) :
  let pid := ParticipantRegister.participant_id data in
  let result := run w (register_participant data) in
  let p' := Database.merge_update
              (registration_updates (clock (env w) (tick w)) data) p in
  participants (db w) !! pid = Some p → p ≠ ∅ →
  present (p !! "portrait_url") → present (p !! "icon_url") →
  participants (db result.1) = <[pid := p']> (participants (db w))
  ∧ events (db result.1) = events (db w)
  ∧ result.2 = match ParticipantResponse.construct p' with
               | Some r => Returned r
               | None => Failed ValidationError
               end.
Proof.
  intros pid result p' Hp Hne H1 H2. subst result.
  unfold register_participant. fold pid.
  cbn [run exec]. unfold Database.get_participant. cbn [db log].
  rewrite Hp, (py_found_some _ Hne).
  rewrite (present_truthy _ _ H1), (present_truthy _ _ H2).
  cbn [negb orb run exec].
  unfold Database.update_participant, Database.get_participant.
  cbn [db log with_db drawn participants events env tick]. rewrite Hp.
  cbn [db log with_db drawn participants events env tick].
  by rewrite lookup_insert_eq, run_validated.
Qed.

(** C4.  On an existing participant, [register_participant] answers 400
    whenever [portrait_url] or [icon_url] is null, whatever the other
    fields and the payload are, and then it has made no call but the fetch:
    the store is as before.  When both URLs are present it stores
    [registered_at] as the current time and [active] as true, stores
    [suit_color] and [appearance] only when the payload supplies them,
    leaves every other field alone, and answers the updated record. *)
Theorem register_requires_avatar (w : world) (data : ParticipantRegister.t)
    (p : dict) :
  let pid := ParticipantRegister.participant_id data in
  let suit := ParticipantRegister.suit_color data in
  let look := ParticipantRegister.appearance data in
  let now := clock (env w) (tick w) in
  let result := run w (register_participant data) in
  participants (db w) !! pid = Some p → p ≠ ∅ →
  (null (p !! "portrait_url") ∨ null (p !! "icon_url") →
     result
     = (log (GetParticipant pid) w,
        Failed (HTTPException 400 "Avatar must be uploaded before registration"))
     ∧ db result.1 = db w)
  ∧ (present (p !! "portrait_url") → present (p !! "icon_url") →
     field_of result.1 pid "registered_at" = Some (VTime now)
     ∧ field_of result.1 pid "active" = Some (VBool true)
     ∧ field_of result.1 pid "suit_color"
       = (if supplied suit then Some (value_of_str suit) else p !! "suit_color")
     ∧ field_of result.1 pid "appearance"
       = (if supplied look then Some (value_of_str look) else p !! "appearance")
     ∧ (∀ k, k ∉ ["registered_at"; "active"; "suit_color"; "appearance"] →
          field_of result.1 pid k = p !! k)
     ∧ (∀ r, ParticipantResponse.construct p = Some r →
          result.2 = Returned (with_registration now suit r))).
Proof.
  intros pid suit look now result Hp Hne. split.
  - intros Hnull. subst result.
    unfold register_participant. fold pid.
    cbn [run exec]. unfold Database.get_participant. cbn [db log].
    rewrite Hp, (py_found_some _ Hne).
    assert (negb (truthy (py_get p "portrait_url"))
            || negb (truthy (py_get p "icon_url")) = true) as ->.
    { destruct Hnull as [H|H]; rewrite (null_falsy _ _ H);
        [done|apply orb_true_r]. }
    done.
  - intros H1 H2.
    destruct (register_stores w data p Hp Hne H1 H2) as (Hstored & _ & Hout).
    fold result in Hstored, Hout. unfold field_of. rewrite Hstored.
    fold pid. rewrite lookup_insert_eq. cbn [mbind option_bind].
    destruct (registered_record now data p) as (R1 & R2 & R3 & R4 & R5).
    split_and!; [done..|].
    intros r Hr. rewrite Hout. fold now.
    by rewrite (construct_registered _ _ _ _ Hr).
Qed.

(** *** Initialisation *)

Ltac run_step :=
  cbn [run exec]; unfold Database.get_event, Database.get_participant;
  cbn [db log with_db drawn env tick bucket trace negb fst snd].

Ltac gate := intros; simplify_eq; first [done | congruence].

Ltac reads_only :=
  split; [done|]; split; [done|];
  eexists; split; [rewrite <- ?app_assoc; reflexivity|];
  simpl; by repeat constructor.

Lemma randint_bounds (a b raw n : Z) :
  randint a b raw = Some n → a <= n <= b.
Proof.
  unfold randint. destruct (Z.leb_spec a b); [|done].
  intros [= <-]. pose proof (Z.mod_pos_bound raw (b - a + 1)). lia.
Qed.

Lemma randint_defined (a b raw : Z) :
  a <= b → ∃ n, randint a b raw = Some n.
Proof.
  intros H. unfold randint. destruct (Z.leb_spec a b); [eauto|lia].
Qed.

Lemma event_full_ints (ev : dict) (count limit : Z) :
  ev !! "participant_count" = Some (VInt count) →
  ev !! "max_participants" = Some (VInt limit) →
  event_full ev = Some (count >=? limit).
Proof. unfold event_full, py_get_default. by intros -> ->. Qed.

Lemma create_participant_free (d : database) (p : dict) :
  Database.check_username_exists d (Database.str_field p "event_code")
                                 (Database.str_field p "username") = false →
  Database.create_participant d p
  = ({| events := alter Database.increment_count
                    (Database.str_field p "event_code") (events d);
        participants :=
          <[Database.str_field p "participant_id" := p]> (participants d) |},
     StoreOk).
Proof. intros H. unfold Database.create_participant. by rewrite H. Qed.

(** The gates of [init_participant] in terms of the tests the route makes
    on the event it has fetched. *)
Lemma init_gates_by_tests (w : world) (data : ParticipantInit.t) :
  let code := ParticipantInit.event_code data in
  let user := ParticipantInit.username data in
  let fetched := py_found (events (db w) !! code) in
  let result := run w (init_participant MAP_WIDTH MAP_HEIGHT data) in
  (fetched = None →
     result = (log (GetEvent code) w,
               Failed (HTTPException 404 "Event not found")))
  ∧ (∀ ev, fetched = Some ev → event_active ev = false →
       result = (log (GetEvent code) w,
                 Failed (HTTPException 410 "Event has ended")))
  ∧ (∀ ev, fetched = Some ev → event_active ev = true →
       event_full ev = Some true →
       result = (log (GetEvent code) w,
                 Failed (HTTPException 409 "Event is full")))
  ∧ (∀ ev n, fetched = Some ev → event_active ev = true →
       ev !! "participant_count" = Some (VInt n) →
       ev !! "max_participants" = Some (VInt n) →
       result.2 = Failed (HTTPException 409 "Event is full"))
  ∧ (∀ ev, fetched = Some ev → event_active ev = true →
       event_full ev = Some false →
       Database.check_username_exists (db w) code user = true →
       result = (log (CheckUsernameExists code user) (log (GetEvent code) w),
                 Failed (HTTPException 409 "Username already taken")))
  ∧ (∀ status detail, result.2 = Failed (HTTPException status detail) →
       db result.1 = db w ∧ bucket result.1 = bucket w
       ∧ ∃ reads, trace result.1 = (trace w ++ reads)%list
                  ∧ Forall (λ c, is_read c = true) reads).
Proof.
  intros code user fetched result. subst result fetched.
  unfold init_participant. fold code user. run_step.
  destruct (py_found (events (db w) !! code)) as [ev|]; run_step.
  2: { split_and!; try done. intros ?? _.
       reads_only. }
  destruct (event_active ev) eqn:Hactive; cbn [negb]; run_step.
  2: { split_and!; try done; try (gate). intros ?? _.
       reads_only. }
  split; [gate|]. split; [gate|].
  destruct (event_full ev) as [[|]|] eqn:Hfull; run_step.
  - split; [gate|].
    split; [gate|]. split; [gate|].
    intros ?? _. reads_only.
  - split; [gate|].
    split.
    { intros ev' n [= <-] _ Hc Hm.
      rewrite (event_full_ints _ _ _ Hc Hm) in Hfull.
      destruct (Z.geb_spec n n); [done|lia]. }
    destruct (Database.check_username_exists (db w) code user) eqn:Htaken;
      run_step.
    + split; [gate|]. intros ?? _.
      reads_only.
    + split; [gate|].
      destruct (randint 10 (MAP_WIDTH - 10) _); run_step; [|gate].
      destruct (randint 10 (MAP_HEIGHT - 10) _); run_step; [|gate].
      destruct (Database.create_participant _ _). by intros.
  - split; [gate|].
    split.
    { intros ev' n [= <-] _ Hc Hm.
      by rewrite (event_full_ints _ _ _ Hc Hm) in Hfull. }
    split; [gate|]. by intros.
Qed.

(** C3.  [init_participant] tests, in this order, that the event exists,
    that it is active, that it has room and that the username is free, and
    answers the first test that fails with 404, 410, 409 and 409; an event
    whose count equals its limit is full whatever the username.  Whenever
    the answer is such a failure the store is as before: the calls made so
    far are reads.  On the event document: no document (or an empty one)
    gives 404; a document whose [active] is [False] gives 410, whatever
    its counters say and whether the username is taken or not; a document
    whose [active] is [True] gives 409 "Event is full" when its count has
    reached its limit, whether the username is taken or not, and 409
    "Username already taken" when there is room and the username is
    taken. *)
Theorem init_gates_in_order (w : world) (data : ParticipantInit.t) :
  let code := ParticipantInit.event_code data in
  let user := ParticipantInit.username data in
  let fetched := py_found (events (db w) !! code) in
  let result := run w (init_participant MAP_WIDTH MAP_HEIGHT data) in
  (fetched = None →
     result = (log (GetEvent code) w,
               Failed (HTTPException 404 "Event not found")))
  ∧ (∀ ev, fetched = Some ev → event_active ev = false →
       result = (log (GetEvent code) w,
                 Failed (HTTPException 410 "Event has ended")))
  ∧ (∀ ev, fetched = Some ev → event_active ev = true →
       event_full ev = Some true →
       result = (log (GetEvent code) w,
                 Failed (HTTPException 409 "Event is full")))
  ∧ (∀ ev n, fetched = Some ev → event_active ev = true →
       ev !! "participant_count" = Some (VInt n) →
       ev !! "max_participants" = Some (VInt n) →
       result.2 = Failed (HTTPException 409 "Event is full"))
  ∧ (∀ ev, fetched = Some ev → event_active ev = true →
       event_full ev = Some false →
       Database.check_username_exists (db w) code user = true →
       result = (log (CheckUsernameExists code user) (log (GetEvent code) w),
                 Failed (HTTPException 409 "Username already taken")))
  ∧ (∀ status detail, result.2 = Failed (HTTPException status detail) →
       db result.1 = db w ∧ bucket result.1 = bucket w
       ∧ ∃ reads, trace result.1 = (trace w ++ reads)%list
                  ∧ Forall (λ c, is_read c = true) reads)
  ∧ (events (db w) !! code = None ∨ events (db w) !! code = Some ∅ →
       result = (log (GetEvent code) w,
                 Failed (HTTPException 404 "Event not found")))
  ∧ (∀ ev, events (db w) !! code = Some ev → ev ≠ ∅ →
       ev !! "active" = Some (VBool false) →
       result = (log (GetEvent code) w,
                 Failed (HTTPException 410 "Event has ended")))
  ∧ (∀ ev count limit, events (db w) !! code = Some ev → ev ≠ ∅ →
       ev !! "active" = Some (VBool true) →
       ev !! "participant_count" = Some (VInt count) →
       ev !! "max_participants" = Some (VInt limit) →
       (limit <= count →
          result = (log (GetEvent code) w,
                    Failed (HTTPException 409 "Event is full")))
       ∧ (count < limit →
          Database.check_username_exists (db w) code user = true →
          result
          = (log (CheckUsernameExists code user) (log (GetEvent code) w),
             Failed (HTTPException 409 "Username already taken")))).
Proof.
  intros code user fetched result.
  destruct (init_gates_by_tests w data)
    as (Hmissing & Hended & Hfull & _ & Htaken & Hreads).
  fold code user fetched result in Hmissing, Hended, Hfull, Htaken, Hreads.
  split_and!; try assumption.
  - exact (proj1 (proj2 (proj2 (proj2 (init_gates_by_tests w data))))).
  - intros Hnone. apply Hmissing. subst fetched. unfold py_found.
    destruct Hnone as [->| ->]; [done|]. by destruct (decide _).
  - intros ev Hev Hne Hactive. apply (Hended ev).
    + subst fetched. rewrite Hev. by apply py_found_some.
    + unfold event_active, py_get_default. by rewrite Hactive.
  - intros ev count limit Hev Hne Hactive Hcount Hlimit.
    assert (fetched = Some ev) as Hfetched.
    { subst fetched. rewrite Hev. by apply py_found_some. }
    assert (event_active ev = true) as Htest.
    { unfold event_active, py_get_default. by rewrite Hactive. }
    pose proof (event_full_ints ev count limit Hcount Hlimit) as Hroom.
    split.
    + intros Hle. apply (Hfull ev Hfetched Htest). rewrite Hroom.
      f_equal. lia.
    + intros Hlt Hexists. apply (Htaken ev Hfetched Htest); [|done].
      rewrite Hroom. f_equal. lia.
Qed.

Lemma new_participant_fields (data : ParticipantInit.t) (pid : string)
    (x y t : Z) :
  let p := new_participant data pid x y t in
  p !! "participant_id" = Some (VStr pid)
  ∧ p !! "username" = Some (VStr (ParticipantInit.username data))
  ∧ p !! "event_code" = Some (VStr (ParticipantInit.event_code data))
  ∧ p !! "x" = Some (VInt x)
  ∧ p !! "y" = Some (VInt y).
Proof.
  unfold new_participant. rewrite !list_to_map_cons. cbn [fst snd].
  lookups. done.
Qed.

(** C8.  Whenever [init_participant] returns a response, the response
    carries the id drawn for the new participant, the username and event
    code of the request, and starting coordinates with
    [10 <= x <= MAP_WIDTH - 10] and [10 <= y <= MAP_HEIGHT - 10], whatever
    the random source draws; these are the values of the record it stored.
    It does return a response when the four gates pass and the map is at
    least 20 wide and high. *)
Theorem init_response_in_interior (w : world) (data : ParticipantInit.t) :
  let code := ParticipantInit.event_code data in
  let user := ParticipantInit.username data in
  let result := run w (init_participant MAP_WIDTH MAP_HEIGHT data) in
  (∀ w' r, result = (w', Returned r) →
     let pid := ParticipantInitResponse.participant_id r in
     pid = token_source (env w) (tick w)
     ∧ ParticipantInitResponse.username r = user
     ∧ ParticipantInitResponse.event_code r = code
     ∧ 10 <= ParticipantInitResponse.starting_x r <= MAP_WIDTH - 10
     ∧ 10 <= ParticipantInitResponse.starting_y r <= MAP_HEIGHT - 10
     ∧ field_of w' pid "participant_id" = Some (VStr pid)
     ∧ field_of w' pid "username" = Some (VStr user)
     ∧ field_of w' pid "event_code" = Some (VStr code)
     ∧ field_of w' pid "x" = Some (VInt (ParticipantInitResponse.starting_x r))
     ∧ field_of w' pid "y" = Some (VInt (ParticipantInitResponse.starting_y r)))
  ∧ (∀ ev, py_found (events (db w) !! code) = Some ev →
       event_active ev = true → event_full ev = Some false →
       Database.check_username_exists (db w) code user = false →
       20 <= MAP_WIDTH → 20 <= MAP_HEIGHT →
       ∃ w' r, result = (w', Returned r)).
Proof.
  intros code user result. subst result.
  unfold init_participant. fold code user. run_step.
  destruct (py_found (events (db w) !! code)) as [ev|]; run_step;
    [|split; gate].
  destruct (event_active ev) eqn:Hactive; cbn [negb]; run_step;
    [|split; gate].
  destruct (event_full ev) as [[|]|] eqn:Hfull; run_step;
    [split; gate| |split; gate].
  destruct (Database.check_username_exists (db w) code user) eqn:Hfree;
    run_step; [split; gate|].
  destruct (randint 10 (MAP_WIDTH - 10) _) as [x|] eqn:Hx; run_step.
  2: { split; [gate|]. intros ev' _ _ _ _ HW _.
       destruct (randint_defined 10 (MAP_WIDTH - 10)
                   (random_source (env w) (S (tick w)))); [lia|congruence]. }
  destruct (randint 10 (MAP_HEIGHT - 10) _) as [y|] eqn:Hy; run_step.
  2: { split; [gate|]. intros ev' _ _ _ _ _ HH.
       destruct (randint_defined 10 (MAP_HEIGHT - 10)
                   (random_source (env w) (S (S (tick w))))); [lia|congruence]. }
  set (p := new_participant _ _ _ _ _).
  destruct (new_participant_fields data (token_source (env w) (tick w)) x y
              (clock (env w) (S (S (S (tick w))))))
    as (Fid & Fuser & Fcode & Fx & Fy).
  fold p in Fid, Fuser, Fcode, Fx, Fy.
  rewrite create_participant_free; unfold Database.str_field;
    rewrite ?Fid, ?Fuser, ?Fcode; [|done].
  run_step. split; [|eauto].
  intros w' r [= <- <-]. cbn [ParticipantInitResponse.participant_id
    ParticipantInitResponse.username ParticipantInitResponse.event_code
    ParticipantInitResponse.starting_x ParticipantInitResponse.starting_y].
  unfold field_of. cbn [db log with_db participants].
  rewrite lookup_insert_eq. cbn [mbind option_bind].
  apply randint_bounds in Hx, Hy. done.
Qed.

(** *** What an operation leaves alone *)

Lemma exec_spares (key pid : string) (w : world) (c : call) :
  spares key c → field_of (exec w c).1 pid key = field_of w pid key.
Proof.
  destruct c; cbn [spares exec]; try done.
  - intros Hkey. unfold Database.update_participant. cbn [db log].
    destruct (participants (db w) !! participant_id) as [old|] eqn:Hold;
      [|done].
    unfold field_of. cbn [fst db with_db participants].
    destruct (decide (participant_id = pid)) as [->|Hpid].
    + rewrite lookup_insert_eq, Hold. cbn [mbind option_bind].
      by apply merge_update_spares.
    + by rewrite lookup_insert_ne.
Qed.

Lemma run_spares {A} (key pid : string) (p : prog A) (w : world) :
  calls_only (spares key) p →
  field_of (run w p).1 pid key = field_of w pid key.
Proof.
  intros Hp. revert w.
  induction Hp as [a|e|c k Hc _ IH]; intros w; [done..|].
  cbn [run]. pose proof (exec_spares key pid w c Hc) as He.
  destruct (exec w c) as [w' [e|r]]; [done|]. by rewrite IH.
Qed.

Lemma calls_only_bind {A B} (P : call → Prop) (m : prog A) (f : A → prog B) :
  calls_only P m → (∀ a, calls_only P (f a)) → calls_only P (bind m f).
Proof.
  intros Hm Hf. induction Hm; cbn [bind]; [done|constructor|].
  constructor; [done|]. auto.
Qed.

Lemma calls_only_validated {A} (P : call → Prop) (o : option A) :
  calls_only P (validated o).
Proof. destruct o; constructor. Qed.

Lemma upload_each_spares (key : string) (event_code : value) (pid : string)
    (files : list (UploadFile.t * string * string))
    (urls : list (string * string)) :
  calls_only (spares key)
    (upload_each get_avatar_url py_format event_code pid files urls).
Proof.
  revert urls. induction files as [|[[file filename] url_key] rest IH];
    intros urls; cbn [upload_each]; [constructor|].
  destruct (extension_of _); constructor; [done|]. intros _. apply IH.
Qed.

Lemma update_data_keys (updates : ParticipantUpdate.t) (key : string) :
  key ∉ (ParticipantUpdate.items updates).*1 →
  update_data_of updates !! key = None.
Proof.
  intros Hkey. unfold update_data_of. apply not_elem_of_list_to_map_1.
  intros Hin. apply Hkey.
  apply list_elem_of_fmap in Hin as ([k v] & -> & Hin).
  apply list_elem_of_In, filter_In in Hin as [Hin _].
  apply list_elem_of_fmap. exists (k, v). split; [done|].
  by apply list_elem_of_In.
Qed.

Lemma literal_spares (key : string) (items : list (string * value)) :
  key ∉ items.*1 → (list_to_map items : dict) !! key = None.
Proof. apply not_elem_of_list_to_map_1. Qed.

(** An operation on a participant changes, of any participant's record, at
    most the fields it writes. *)
Lemma request_frame (pid pid' key : string) (o : operation) (w : world) :
  key ∉ written_by o →
  field_of (request get_avatar_url py_format pid o w) pid' key
  = field_of w pid' key.
Proof.
  intros Hkey. destruct o; cbn [request written_by] in *; apply run_spares.
  - unfold upload_avatar. constructor; [done|]. intros r.
    destruct (py_found r) as [p|]; [|constructor].
    destruct (check_types _); [constructor|].
    destruct (p !! "event_code"); [|constructor].
    repeat (constructor; [done|]; intros _).
    constructor; [by apply literal_spares|]. intros _. constructor.
  - unfold register_participant. constructor; [done|]. intros r.
    destruct (py_found r) as [p|]; [|constructor].
    destruct (_ || _); [constructor|].
    constructor; [done|]. intros now.
    constructor; [|intros _; constructor; [done|];
                   intros [?|]; [apply calls_only_validated|constructor]].
    cbn [spares]. unfold registration_updates.
    rewrite !list_to_map_cons, list_to_map_nil.
    rewrite !not_elem_of_cons in Hkey. destruct Hkey as (?&?&?&?&_).
    repeat case_match; by rewrite ?lookup_insert_ne, lookup_empty.
  - unfold upload_evidence. constructor; [done|]. intros r.
    destruct (py_found r) as [p|]; [|constructor].
    destruct (p !! "event_code"); [|constructor].
    apply calls_only_bind; [apply upload_each_spares|]. intros urls.
    constructor; [by apply literal_spares|]. intros _. constructor.
  - unfold confirm_location. constructor; [done|]. intros r.
    destruct (py_found r) as [p|]; [|constructor].
    constructor; [by apply literal_spares|]. intros _. constructor.
  - unfold update_participant_details. constructor; [done|]. intros r.
    destruct (py_found r) as [p|]; [|constructor].
    destruct (decide _); [apply calls_only_validated|].
    constructor; [by apply update_data_keys|]. intros _.
    constructor; [done|].
    intros [?|]; [apply calls_only_validated|constructor].
Qed.

Lemma requests_frame (pid pid' key : string) (ops : list operation)
    (w : world) :
  Forall (λ o, key ∉ written_by o) ops →
  field_of (requests get_avatar_url py_format pid ops w) pid' key
  = field_of w pid' key.
Proof.
  intros Hops. revert w. unfold requests.
  induction Hops as [|o ops Ho _ IH]; intros w; cbn [fold_left]; [done|].
  by rewrite IH, request_frame.
Qed.

(** C5, as the routes have it.  [registered_at] is written by
    [register_participant] and by nothing else: every sequence of avatar
    uploads, evidence uploads, location confirmations and overrides leaves
    it as it was, while each registration that passes its gate, the first
    or a later one, stores the time of that call. *)
Theorem registered_at_written_by_register_only (w : world) (pid : string) :
  (∀ ops, Forall (λ o, is_register o = false) ops →
     field_of (requests get_avatar_url py_format pid ops w) pid "registered_at"
     = field_of w pid "registered_at")
  ∧ (∀ p suit look, participants (db w) !! pid = Some p → p ≠ ∅ →
       present (p !! "portrait_url") → present (p !! "icon_url") →
       field_of (request get_avatar_url py_format pid (Register suit look) w)
                pid "registered_at"
       = Some (VTime (clock (env w) (tick w)))).
Proof.
  split.
  - intros ops Hops. apply requests_frame.
    eapply Forall_impl; [exact Hops|]. intros o Ho.
    destruct o; try discriminate Ho; cbn [written_by fmap list_fmap
      ParticipantUpdate.items fst]; closed.
  - intros p suit look Hp Hne H1 H2. cbn [request].
    destruct (register_stores w (ParticipantRegister.mk pid suit look) p
                Hp Hne H1 H2) as (Hstored & _).
    unfold field_of. rewrite Hstored.
    cbn [ParticipantRegister.participant_id].
    rewrite lookup_insert_eq. cbn [mbind option_bind].
    apply registered_record.
Qed.

(** *** Evidence upload *)

(** C9, as the routes have it.  The extension of an evidence file follows
    from its declared content type by a fixed precedence: a type that
    contains "video" gives mp4; otherwise a type that contains "png" (as
    image/png does) gives png; any other type gives jpg.  Each of the three
    files is stored under [evidence/{event}/{id}/{name}.{ext}] with that
    extension, and the mapping from soil, stars and flora to the URLs of
    these paths is stored as the participant's [evidence_urls] and
    answered. *)
Theorem evidence_extension_by_precedence (w : world) (pid : string)
    (p : dict) (event_code : value)
    (soil_sample star_field flora_recording : UploadFile.t)
    (ext1 ext2 ext3 : string) :
  (∀ t, extension_of (Some t)
        = Some (if str_in "video" t then "mp4"
                else if str_in "png" t then "png" else "jpg"))
  ∧ extension_of (Some "image/png") = Some "png"
  ∧ (participants (db w) !! pid = Some p → p ≠ ∅ →
     p !! "event_code" = Some event_code →
     extension_of (UploadFile.content_type soil_sample) = Some ext1 →
     extension_of (UploadFile.content_type star_field) = Some ext2 →
     extension_of (UploadFile.content_type flora_recording) = Some ext3 →
     let path1 := evidence_path py_format event_code pid "soil_sample" ext1 in
     let path2 := evidence_path py_format event_code pid "star_field" ext2 in
     let path3 := evidence_path py_format event_code pid "flora_recording" ext3 in
     let urls := [("soil", get_avatar_url path1);
                  ("stars", get_avatar_url path2);
                  ("flora", get_avatar_url path3)] in
     let result :=
       run w (upload_evidence get_avatar_url py_format pid
                soil_sample star_field flora_recording) in
     result.2 = Returned (list_to_map [("status", VStr "success");
                                       ("evidence_urls", VDict urls)])
     ∧ bucket result.1
       = <[path3 := (UploadFile.content flora_recording,
                     UploadFile.content_type flora_recording)]>
           (<[path2 := (UploadFile.content star_field,
                        UploadFile.content_type star_field)]>
              (<[path1 := (UploadFile.content soil_sample,
                           UploadFile.content_type soil_sample)]> (bucket w)))
     ∧ participants (db result.1)
       = <[pid := <["evidence_urls" := VDict urls]> p]> (participants (db w))).
Proof.
  split; [done|]. split; [done|].
  intros Hp Hne Hcode H1 H2 H3 path1 path2 path3 urls result. subst result.
  unfold upload_evidence. run_step.
  rewrite Hp, (py_found_some _ Hne), Hcode.
  cbn [upload_each]. rewrite H1. cbn [bind]. run_step.
  rewrite H2. cbn [bind]. run_step.
  rewrite H3. cbn [bind]. run_step.
  unfold Database.update_participant.
  cbn [db log with_db with_object participants events bucket set_item
       String.eqb Ascii.eqb Bool.eqb]. rewrite Hp.
  cbn [fst snd db log with_db with_object participants events bucket].
  rewrite !list_to_map_cons, !list_to_map_nil, merge_update_insert,
    merge_update_empty by done.
  done.
Qed.

(** *** Two initialisations in flight *)

(** C2, evaluated on the routes.  Two [init_participant] requests for the
    same event and username, on an event with room and with the username
    free, interleaved so that both make their availability check before
    either creates its record: both return a response for that username and
    neither is answered 409.  The check and the creation are two calls on
    the persistence layer, and here the two checks precede the two
    creations. *)
Theorem init_race_both_succeed (w : world) (data : ParticipantInit.t)
    (ev : dict) :
  let code := ParticipantInit.event_code data in
  let user := ParticipantInit.username data in
  let init := init_participant MAP_WIDTH MAP_HEIGHT data in
  py_found (events (db w) !! code) = Some ev →
  event_active ev = true → event_full ev = Some false →
  Database.check_username_exists (db w) code user = false →
  20 <= MAP_WIDTH → 20 <= MAP_HEIGHT →
  ∃ w' r1 r2 p1 p2,
    interleave [0; 1; 0; 1; 0; 1]%nat w [init; init] = (w', [Ret r1; Ret r2])
    ∧ ParticipantInitResponse.username r1 = user
    ∧ ParticipantInitResponse.username r2 = user
    ∧ ParticipantInitResponse.event_code r1 = code
    ∧ ParticipantInitResponse.event_code r2 = code
    ∧ trace w'
      = (trace w ++
         [GetEvent code; GetEvent code;
          CheckUsernameExists code user;
          TokenHex 4; RandInt 10 (MAP_WIDTH - 10);
          RandInt 10 (MAP_HEIGHT - 10); UtcNow;
          CheckUsernameExists code user;
          TokenHex 4; RandInt 10 (MAP_WIDTH - 10);
          RandInt 10 (MAP_HEIGHT - 10); UtcNow;
          CreateParticipant p1; CreateParticipant p2])%list.
Proof.
  intros code user init Hev Hactive Hfull Hfree HW HH. subst init.
  unfold init_participant. fold code user.
  destruct (randint_defined 10 (MAP_WIDTH - 10)
              (random_source (env w) (S (tick w)))) as [x1 Hx1]; [lia|].
  destruct (randint_defined 10 (MAP_HEIGHT - 10)
              (random_source (env w) (S (S (tick w))))) as [y1 Hy1]; [lia|].
  destruct (randint_defined 10 (MAP_WIDTH - 10)
              (random_source (env w) (S (S (S (S (S (tick w))))))))
    as [x2 Hx2]; [lia|].
  destruct (randint_defined 10 (MAP_HEIGHT - 10)
              (random_source (env w) (S (S (S (S (S (S (tick w)))))))))
    as [y2 Hy2]; [lia|].
  do 8 (cbn [interleave lookup list_lookup insert list_insert step settle
             is_await];
        run_step;
        rewrite ?Hev, ?Hactive, ?Hfull, ?Hfree, ?Hx1, ?Hy1, ?Hx2, ?Hy2;
        cbn [negb]).
  do 2 (destruct (Database.create_participant _ _) as [? ?];
        cbn [interleave lookup list_lookup insert list_insert step settle
             is_await];
        run_step).
  do 5 eexists. split; [reflexivity|]. split_and!; [done..|].
  cbn [trace log drawn with_db]. rewrite <- !app_assoc. done.
Qed.

End RouteFacts.

(** ** The properties on the scenarios *)

Ltac nonempty := apply (bool_decide_unpack _); vm_compute; exact I.

(** The two participants of the example deployment. *)
Lemma alice_stored :
  participants (db example_world) !! "a1b2c3d4" = Some alice ∧ alice ≠ ∅.
Proof. split; [reflexivity|nonempty]. Qed.

Lemma carol_stored :
  participants (db example_world) !! "0badcafe" = Some carol ∧ carol ≠ ∅.
Proof. split; [reflexivity|nonempty]. Qed.

Lemma carol_has_avatar :
  present (carol !! "portrait_url") ∧ present (carol !! "icon_url").
Proof. split; (eexists; split; [reflexivity|discriminate]). Qed.

(** An empty override on Alice only logs the fetch of her record. *)
Lemma override_empty_is_identity_witness :
  participants (db example_world) !! "a1b2c3d4" = Some alice ∧ alice ≠ ∅
  ∧ (run example_world (update_participant_details "a1b2c3d4" no_updates)).1
    = log (GetParticipant "a1b2c3d4") example_world.
Proof.
  destruct alice_stored as [Hp Hne].
  split; [exact Hp|]. split; [exact Hne|].
  exact (proj1 (override_empty_is_identity example_world "a1b2c3d4" alice
                  Hp Hne)).
Defined.

(** Setting Alice's [level_2_complete] keeps each of her other fields. *)
Lemma override_level_2_frame_witness :
  participants (db example_world) !! "a1b2c3d4" = Some alice ∧ alice ≠ ∅
  ∧ ∀ k, k ≠ "level_2_complete" →
      field_of (run example_world
                  (update_participant_details "a1b2c3d4" (only_level_2 true))).1
               "a1b2c3d4" k
      = field_of example_world "a1b2c3d4" k.
Proof.
  destruct alice_stored as [Hp Hne].
  split; [exact Hp|]. split; [exact Hne|].
  exact (proj1 (proj2 (proj2 (proj2
    (override_level_2_frame example_world "a1b2c3d4" alice Hp Hne))))).
Defined.

(** Event E1 holds 2 of 2 participants: a fresh, valid username is refused
    with 409 after the fetch of the event.  Event E4 has ended: erin, whose
    name is taken there, is refused with 410 although E4 is full too. *)
Lemma init_gates_in_order_witness :
  py_found (events (db example_world) !! "E1") = Some full_event
  ∧ event_active full_event = true
  ∧ event_full full_event = Some true
  ∧ ParticipantInit.valid_username "alice" = true
  ∧ Database.check_username_exists (db example_world) "E1" "alice" = false
  ∧ run example_world
        (init_participant 100 100 (ParticipantInit.mk "E1" "alice" None))
    = (log (GetEvent "E1") example_world,
       Failed (HTTPException 409 "Event is full"))
  ∧ events (db ended_world) !! "E4" = Some ended_event
  ∧ ended_event ≠ ∅
  ∧ ended_event !! "active" = Some (VBool false)
  ∧ ended_event !! "participant_count" = Some (VInt 2)
  ∧ ended_event !! "max_participants" = Some (VInt 2)
  ∧ Database.check_username_exists (db ended_world) "E4" "erin" = true
  ∧ run ended_world
        (init_participant 100 100 (ParticipantInit.mk "E4" "erin" None))
    = (log (GetEvent "E4") ended_world,
       Failed (HTTPException 410 "Event has ended")).
Proof.
  assert (H1 : py_found (events (db example_world) !! "E1") = Some full_event)
    by reflexivity.
  assert (H2 : event_active full_event = true) by reflexivity.
  assert (H3 : event_full full_event = Some true) by reflexivity.
  assert (H4 : events (db ended_world) !! "E4" = Some ended_event)
    by reflexivity.
  assert (H5 : ended_event ≠ ∅) by nonempty.
  assert (H6 : ended_event !! "active" = Some (VBool false)) by reflexivity.
  split_and!;
    [exact H1|exact H2|exact H3|reflexivity|reflexivity| |
     exact H4|exact H5|exact H6|reflexivity|reflexivity|reflexivity|].
  - destruct (init_gates_in_order 100 100 example_world
                (ParticipantInit.mk "E1" "alice" None))
      as (_ & _ & Hfull & _).
    exact (Hfull full_event H1 H2 H3).
  - destruct (init_gates_in_order 100 100 ended_world
                (ParticipantInit.mk "E4" "erin" None))
      as (_ & _ & _ & _ & _ & _ & _ & Hended & _).
    exact (Hended ended_event H4 H5 H6).
Defined.

(** Alice has no avatar and is refused with 400; Carol has one and is
    registered at time 1000. *)
Lemma register_requires_avatar_witness :
  null (alice !! "portrait_url")
  ∧ (run example_world
         (register_participant
            (ParticipantRegister.mk "a1b2c3d4" (Some "teal") None))).2
    = Failed (HTTPException 400 "Avatar must be uploaded before registration")
  ∧ field_of registered_once "0badcafe" "registered_at" = Some (VTime 1000).
Proof.
  assert (Hnull : null (alice !! "portrait_url")) by (by right).
  destruct alice_stored as [Ha Hae], carol_stored as [Hc Hce],
    carol_has_avatar as [Hp Hi].
  split; [exact Hnull|]. split.
  - destruct (register_requires_avatar example_world
                (ParticipantRegister.mk "a1b2c3d4" (Some "teal") None)
                alice Ha Hae) as [Hfail _].
    destruct (Hfail (or_introl Hnull)) as [Hrun _].
    exact (f_equal snd Hrun).
  - destruct (register_requires_avatar example_world
                (ParticipantRegister.mk "0badcafe" None None)
                carol Hc Hce) as [_ Hok].
    exact (proj1 (Hok Hp Hi)).
Defined.

(** C5, refuted as stated: Carol's [registered_at] is 1000 after her first
    registration and 1001 after her second. *)
Lemma second_register_restamps :
  field_of registered_once "0badcafe" "registered_at" = Some (VTime 1000)
  ∧ field_of registered_twice "0badcafe" "registered_at" = Some (VTime 1001)
  ∧ VTime 1000 ≠ VTime 1001.
Proof. split; [reflexivity|]. split; [reflexivity|discriminate]. Qed.

(** After her registration, Carol's other operations keep her
    [registered_at] at 1000. *)
Lemma registered_at_written_by_register_only_witness :
  let ops := [UploadAvatar png_file jpeg_file; ConfirmLocation 61 12;
              UploadEvidence png_file jpeg_file mp4_file;
              Override (only_level_2 true)] in
  Forall (λ o, is_register o = false) ops
  ∧ field_of (requests example_url example_format "0badcafe" ops
                       registered_once) "0badcafe" "registered_at"
    = Some (VTime 1000).
Proof.
  intros ops.
  assert (Hops : Forall (λ o, is_register o = false) ops)
    by (by repeat constructor).
  split; [exact Hops|].
  destruct (registered_at_written_by_register_only example_url example_format
              registered_once "0badcafe") as [Hframe _].
  exact (Hframe ops Hops).
Defined.

(** Bob's initialisation on the map of 100 by 100 starts him at (52, 89). *)
Lemma init_response_in_interior_witness :
  let r := ParticipantInitResponse.mk "9f3c2a1b" "bob" "E2" 52 89 in
  (run example_world (init_participant 100 100 bob)).2 = Returned r
  ∧ 10 <= ParticipantInitResponse.starting_x r <= 100 - 10
  ∧ 10 <= ParticipantInitResponse.starting_y r <= 100 - 10.
Proof.
  intros r.
  assert (Hr : (run example_world (init_participant 100 100 bob)).2
               = Returned r) by reflexivity.
  assert (Hrun : run example_world (init_participant 100 100 bob)
                 = ((run example_world (init_participant 100 100 bob)).1,
                    Returned r))
    by (rewrite <- Hr; apply surjective_pairing).
  split; [exact Hr|].
  destruct (init_response_in_interior 100 100 example_world bob) as [Hok _].
  destruct (Hok _ r Hrun) as (_ & _ & _ & Hx & Hy & _).
  exact (conj Hx Hy).
Defined.

(** C9, refuted as stated: the type image/x-png is not a video type and is
    not image/png, and its extension is png, not the default jpg. *)
Lemma x_png_gets_png :
  str_in "video" "image/x-png" = false
  ∧ "image/x-png" ≠ "image/png"
  ∧ extension_of (Some "image/x-png") = Some "png"
  ∧ "png" ≠ "jpg".
Proof. split_and!; (reflexivity || discriminate). Qed.

(** Carol's evidence: a PNG, a JPEG and an MP4 file are stored with the
    extensions png, jpg and mp4. *)
Lemma evidence_extension_by_precedence_witness :
  extension_of (UploadFile.content_type png_file) = Some "png"
  ∧ extension_of (UploadFile.content_type jpeg_file) = Some "jpg"
  ∧ extension_of (UploadFile.content_type mp4_file) = Some "mp4"
  ∧ field_of (request example_url example_format "0badcafe"
                (UploadEvidence png_file jpeg_file mp4_file) example_world)
             "0badcafe" "evidence_urls"
    = Some (VDict [
        ("soil", "https://storage.example/evidence/E2/0badcafe/soil_sample.png");
        ("stars", "https://storage.example/evidence/E2/0badcafe/star_field.jpg");
        ("flora", "https://storage.example/evidence/E2/0badcafe/flora_recording.mp4")]).
Proof.
  assert (H1 : extension_of (UploadFile.content_type png_file) = Some "png")
    by reflexivity.
  assert (H2 : extension_of (UploadFile.content_type jpeg_file) = Some "jpg")
    by reflexivity.
  assert (H3 : extension_of (UploadFile.content_type mp4_file) = Some "mp4")
    by reflexivity.
  split_and!; [exact H1|exact H2|exact H3|].
  destruct carol_stored as [Hc Hce].
  destruct (evidence_extension_by_precedence example_url example_format
              example_world "0badcafe" carol (VStr "E2")
              png_file jpeg_file mp4_file "png" "jpg" "mp4")
    as (_ & _ & Hrun).
  destruct (Hrun Hc Hce eq_refl H1 H2 H3) as (_ & _ & Hstored).
  unfold field_of. cbn [request]. rewrite Hstored. reflexivity.
Defined.

(** Two requests for bob in the open event E2, interleaved: two responses. *)
Lemma init_race_both_succeed_witness :
  py_found (events (db example_world) !! "E2") = Some open_event
  ∧ event_active open_event = true
  ∧ event_full open_event = Some false
  ∧ Database.check_username_exists (db example_world) "E2" "bob" = false
  ∧ ∃ w',
      interleave [0; 1; 0; 1; 0; 1]%nat example_world
        [init_participant 100 100 bob; init_participant 100 100 bob]
      = (w', [Ret (ParticipantInitResponse.mk "9f3c2a1b" "bob" "E2" 52 89);
              Ret (ParticipantInitResponse.mk "04d7e6a5" "bob" "E2" 38 75)]).
Proof.
  assert (H1 : py_found (events (db example_world) !! "E2") = Some open_event)
    by reflexivity.
  assert (H2 : event_active open_event = true) by reflexivity.
  assert (H3 : event_full open_event = Some false) by reflexivity.
  assert (H4 : Database.check_username_exists (db example_world) "E2" "bob"
               = false) by reflexivity.
  split_and!; [exact H1|exact H2|exact H3|exact H4|].
  destruct (init_race_both_succeed 100 100 example_world bob open_event
              H1 H2 H3 H4) as (w' & r1 & r2 & _ & _ & Hrun & _); [lia..|].
  exists w'. rewrite Hrun. f_equal.
  assert (Hrs : (interleave [0; 1; 0; 1; 0; 1]%nat example_world
                   [init_participant 100 100 bob;
                    init_participant 100 100 bob]).2
                = [Ret (ParticipantInitResponse.mk "9f3c2a1b" "bob" "E2" 52 89);
                   Ret (ParticipantInitResponse.mk "04d7e6a5" "bob" "E2" 38 75)])
    by reflexivity.
  rewrite Hrun in Hrs. exact Hrs.
Defined.

(** The same two requests one after the other: the second is answered 409. *)
Lemma init_twice_in_sequence :
  let first := run example_world (init_participant 100 100 bob) in
  first.2 = Returned (ParticipantInitResponse.mk "9f3c2a1b" "bob" "E2" 52 89)
  ∧ (run first.1 (init_participant 100 100 bob)).2
    = Failed (HTTPException 409 "Username already taken").
Proof. split; reflexivity. Qed.

(** * Further properties of the routes *)

Section Lifecycle.

Variables MAP_WIDTH MAP_HEIGHT : Z.
Variable get_avatar_url : string → string.
Variable py_format : value → string.

Ltac lookups :=
  repeat first
    [ rewrite lookup_insert_eq
    | rewrite lookup_insert_ne by discriminate ].

Ltac closed := by apply (bool_decide_unpack _).

Ltac run_step :=
  cbn [run exec]; unfold Database.get_event, Database.get_participant;
  cbn [db log with_db with_object drawn env tick bucket trace negb fst snd].

Lemma py_found_none (r : option dict) :
  py_found r = None ↔ r = None ∨ r = Some ∅.
Proof.
  unfold py_found. destruct r as [d|]; [|by split; [left|]].
  destruct (decide (d = ∅)) as [->|Hd]; [by split; [right|]|].
  split; [done|]. intros [H|H]; [done|]. by injection H.
Qed.

(** X1.  Every route that addresses a participant by id answers 404
    "Participant not found" when the store has no record under the id, and
    also when the record it has is the empty document; it then has made one
    call, the fetch, and has stored nothing. *)
Theorem participant_routes_answer_404 (w : world) (pid : string) :
  participants (db w) !! pid = None ∨ participants (db w) !! pid = Some ∅ →
  run w (get_participant_info pid)
  = (log (GetParticipant pid) w, Failed not_found)
  ∧ (∀ portrait icon,
       run w (upload_avatar get_avatar_url py_format pid portrait icon)
       = (log (GetParticipant pid) w, Failed not_found))
  ∧ (∀ suit look,
       run w (register_participant (ParticipantRegister.mk pid suit look))
       = (log (GetParticipant pid) w, Failed not_found))
  ∧ (∀ soil stars flora,
       run w (upload_evidence get_avatar_url py_format pid soil stars flora)
       = (log (GetParticipant pid) w, Failed not_found))
  ∧ (∀ x y,
       run w (confirm_location pid x y)
       = (log (GetParticipant pid) w, Failed not_found))
  ∧ (∀ updates,
       run w (update_participant_details pid updates)
       = (log (GetParticipant pid) w, Failed not_found))
  ∧ db (log (GetParticipant pid) w) = db w
  ∧ bucket (log (GetParticipant pid) w) = bucket w.
Proof.
  intros Hmissing. apply py_found_none in Hmissing.
  unfold get_participant_info, upload_avatar, register_participant,
    upload_evidence, confirm_location, update_participant_details.
  cbn [ParticipantRegister.participant_id]. run_step.
  rewrite Hmissing. done.
Qed.

(** *** Avatar upload *)

Lemma allowed_type_iff (content_type : option string) :
  allowed_type content_type = true
  ↔ content_type = Some "image/png" ∨ content_type = Some "image/jpeg".
Proof.
  unfold allowed_type, str_in_list. destruct content_type as [t|];
    [|split; [done|by intros [|]]]. cbn [existsb]. rewrite !orb_true_iff.
  split.
  - intros [H|[H|H]]; [| |done]; apply String.eqb_eq in H; subst; auto.
  - intros [[= ->]|[= ->]]; auto.
Qed.

(** X2.  [upload_avatar] accepts a file only when it declares the type
    image/png or image/jpeg.  When the portrait does not, it answers 400
    naming the portrait, whatever the icon is; when the portrait does and
    the icon does not, it answers 400 naming the icon.  In both cases it
    has uploaded nothing and stored nothing. *)
Theorem upload_avatar_checks_types (w : world) (pid : string) (p : dict)
    (portrait icon : UploadFile.t) :
  participants (db w) !! pid = Some p → p ≠ ∅ →
  let result := run w (upload_avatar get_avatar_url py_format pid portrait icon) in
  (allowed_type (UploadFile.content_type portrait) = false →
     result
     = (log (GetParticipant pid) w,
        Failed (HTTPException 400
                  "Invalid portrait file type. Must be PNG or JPEG.")))
  ∧ (allowed_type (UploadFile.content_type portrait) = true →
     allowed_type (UploadFile.content_type icon) = false →
     result
     = (log (GetParticipant pid) w,
        Failed (HTTPException 400
                  "Invalid icon file type. Must be PNG or JPEG.")))
  ∧ (∀ status detail, result.2 = Failed (HTTPException status detail) →
       db result.1 = db w ∧ bucket result.1 = bucket w).
Proof.
  intros Hp Hne result. subst result. unfold upload_avatar. run_step.
  rewrite Hp, (py_found_some _ Hne). cbn [check_types].
  destruct (allowed_type (UploadFile.content_type portrait));
    [|by split_and!].
  destruct (allowed_type (UploadFile.content_type icon));
    [|by split_and!].
  split; [done|]. split; [done|].
  destruct (p !! "event_code"); run_step; [|done].
  unfold Database.update_participant. cbn [db log with_db with_object participants].
  rewrite Hp. done.
Qed.

(** X3.  When both files declare an accepted type, [upload_avatar] stores
    the portrait under [avatars/{event}/{id}/portrait.png] and the icon
    under [avatars/{event}/{id}/icon.png], a JPEG file too, replacing what
    was there; it writes the URLs of these two paths to [portrait_url] and
    [icon_url], leaves every other field of the record alone, and answers
    the two URLs.  A record without an [event_code] raises [KeyError]
    before anything is uploaded. *)
Theorem upload_avatar_stores (w : world) (pid : string) (p : dict)
    (portrait icon : UploadFile.t) :
  participants (db w) !! pid = Some p → p ≠ ∅ →
  allowed_type (UploadFile.content_type portrait) = true →
  allowed_type (UploadFile.content_type icon) = true →
  let result := run w (upload_avatar get_avatar_url py_format pid portrait icon) in
  (p !! "event_code" = None →
     result = (log (GetParticipant pid) w, Failed (KeyError "event_code")))
  ∧ (∀ event_code, p !! "event_code" = Some event_code →
     let portrait_path :=
       "avatars/" +:+ fstr py_format event_code +:+ "/" +:+ pid
       +:+ "/portrait.png" in
     let icon_path :=
       "avatars/" +:+ fstr py_format event_code +:+ "/" +:+ pid
       +:+ "/icon.png" in
     let portrait_url := VStr (get_avatar_url portrait_path) in
     let icon_url := VStr (get_avatar_url icon_path) in
     result.2 = Returned (list_to_map [("status", VStr "success");
                                       ("portrait_url", portrait_url);
                                       ("icon_url", icon_url)])
     ∧ bucket result.1
       = <[icon_path := (UploadFile.content icon,
                         UploadFile.content_type icon)]>
           (<[portrait_path := (UploadFile.content portrait,
                                UploadFile.content_type portrait)]>
              (bucket w))
     ∧ participants (db result.1)
       = <[pid := <["portrait_url" := portrait_url]>
                    (<["icon_url" := icon_url]> p)]> (participants (db w))
     ∧ events (db result.1) = events (db w)
     ∧ (∀ k, k ∉ ["portrait_url"; "icon_url"] →
          field_of result.1 pid k = p !! k)).
Proof.
  intros Hp Hne Hportrait Hicon result. subst result.
  unfold upload_avatar. run_step.
  rewrite Hp, (py_found_some _ Hne). cbn [check_types].
  rewrite Hportrait, Hicon.
  split; [by intros ->|]. intros event_code ->. run_step.
  unfold Database.update_participant.
  cbn [db log with_db with_object participants events]. rewrite Hp.
  unfold field_of.
  cbn [fst snd db log with_db with_object participants events bucket].
  rewrite !list_to_map_cons, !list_to_map_nil, !merge_update_insert,
    merge_update_empty by done.
  cbn [fst snd]. split_and!; [done..|].
  intros k Hk. rewrite lookup_insert_eq. cbn [mbind option_bind].
  rewrite !not_elem_of_cons in Hk. destruct Hk as (? & ? & _).
  by rewrite !lookup_insert_ne.
Qed.

(** *** Location *)

(** X4.  [confirm_location] tests no bound: for every pair of integers,
    negative or beyond the map as well, it stores them as [x] and [y], sets
    [location_confirmed], leaves every other field of the record alone and
    echoes the pair.  A second confirmation replaces the first: the store
    is as if only the second had been made. *)
Theorem confirm_location_overwrites (w : world) (pid : string) (p : dict)
    (x y : Z) :
  participants (db w) !! pid = Some p → p ≠ ∅ →
  let result := run w (confirm_location pid x y) in
  result.2 = Returned (list_to_map [("status", VStr "success");
                                    ("x", VInt x); ("y", VInt y);
                                    ("location_confirmed", VBool true)])
  ∧ participants (db result.1)
    = <[pid := <["x" := VInt x]> (<["y" := VInt y]>
                 (<["location_confirmed" := VBool true]> p))]>
        (participants (db w))
  ∧ events (db result.1) = events (db w)
  ∧ (∀ k, k ∉ ["x"; "y"; "location_confirmed"] →
       field_of result.1 pid k = p !! k)
  ∧ (∀ x' y',
       db (run result.1 (confirm_location pid x' y')).1
       = db (run w (confirm_location pid x' y')).1).
Proof.
  intros Hp Hne result.
  assert (Hrun : ∀ w0 p0 a b, participants (db w0) !! pid = Some p0 → p0 ≠ ∅ →
    (run w0 (confirm_location pid a b)).2
    = Returned (list_to_map [("status", VStr "success");
                             ("x", VInt a); ("y", VInt b);
                             ("location_confirmed", VBool true)])
    ∧ db (run w0 (confirm_location pid a b)).1
      = {| events := events (db w0);
           participants :=
             <[pid := <["x" := VInt a]> (<["y" := VInt b]>
                        (<["location_confirmed" := VBool true]> p0))]>
               (participants (db w0)) |}).
  { intros w0 p0 a b H0 Hne0. unfold confirm_location. run_step.
    rewrite H0, (py_found_some _ Hne0). run_step.
    unfold Database.update_participant.
    cbn [db log with_db participants events]. rewrite H0.
    cbn [fst snd db log with_db participants events].
    by rewrite !list_to_map_cons, !list_to_map_nil, !merge_update_insert,
      merge_update_empty by done. }
  destruct (Hrun w p x y Hp Hne) as [Hout Hdb]. fold result in Hout, Hdb.
  rewrite Hdb. cbn [participants events].
  split_and!; [done..| |].
  - intros k Hk. unfold field_of. rewrite Hdb. cbn [participants].
    rewrite lookup_insert_eq. cbn [mbind option_bind].
    rewrite !not_elem_of_cons in Hk. destruct Hk as (? & ? & ? & _).
    by rewrite !lookup_insert_ne.
  - intros x' y'.
    destruct (Hrun result.1 (<["x" := VInt x]> (<["y" := VInt y]>
                (<["location_confirmed" := VBool true]> p))) x' y')
      as [_ ->]; [by rewrite Hdb; cbn; rewrite lookup_insert_eq
                 |apply insert_non_empty|].
    destruct (Hrun w p x' y' Hp Hne) as [_ ->].
    rewrite Hdb. cbn [participants events]. f_equal.
    rewrite insert_insert_eq. f_equal.
    apply map_eq. intros k.
    destruct (decide (k = "x")) as [->|]; [by lookups|].
    destruct (decide (k = "y")) as [->|]; [by lookups|].
    destruct (decide (k = "location_confirmed")) as [->|]; [by lookups|].
    by rewrite !lookup_insert_ne.
Qed.

(** *** What the operations on one participant leave alone *)

Lemma exec_targets (pid pid' : string) (w : world) (c : call) :
  targets pid c → pid' ≠ pid →
  participants (db (exec w c).1) !! pid' = participants (db w) !! pid'
  ∧ events (db (exec w c).1) = events (db w).
Proof.
  destruct c; cbn [targets exec]; try done.
  - intros -> Hne. unfold Database.update_participant. cbn [db log].
    destruct (participants (db w) !! pid); [|done].
    cbn [fst db with_db participants events].
    by rewrite lookup_insert_ne.
Qed.

Lemma run_targets {A} (pid pid' : string) (p : prog A) (w : world) :
  calls_only (targets pid) p → pid' ≠ pid →
  participants (db (run w p).1) !! pid' = participants (db w) !! pid'
  ∧ events (db (run w p).1) = events (db w).
Proof.
  intros Hp Hne. revert w.
  induction Hp as [a|e|c k Hc _ IH]; intros w; [done..|].
  cbn [run]. destruct (exec_targets pid pid' w c Hc Hne) as [He1 He2].
  destruct (exec w c) as [w' [e|r]]; [done|].
  destruct (IH r w') as [-> ->]. done.
Qed.

Lemma request_targets (pid : string) (o : operation) :
  ∀ w, ∃ A (p : prog A),
    request get_avatar_url py_format pid o w = (run w p).1
    ∧ calls_only (targets pid) p.
Proof.
  intros w. destruct o; cbn [request]; do 2 eexists; (split; [reflexivity|]).
  - unfold upload_avatar. constructor; [done|]. intros r.
    destruct (py_found r) as [p|]; [|constructor].
    destruct (check_types _); [constructor|].
    destruct (p !! "event_code"); [|constructor].
    repeat (constructor; [done|]; intros _). constructor.
  - unfold register_participant. cbn [ParticipantRegister.participant_id].
    constructor; [done|]. intros r.
    destruct (py_found r) as [p|]; [|constructor].
    destruct (_ || _); [constructor|].
    constructor; [done|]. intros now.
    constructor; [done|]. intros _. constructor; [done|].
    intros [?|]; [apply calls_only_validated|constructor].
  - unfold upload_evidence. constructor; [done|]. intros r.
    destruct (py_found r) as [p|]; [|constructor].
    destruct (p !! "event_code"); [|constructor].
    apply calls_only_bind.
    + generalize (@nil (string * string)).
      generalize [(soil_sample, "soil_sample", "soil");
                  (star_field, "star_field", "stars");
                  (flora_recording, "flora_recording", "flora")].
      intros files. induction files as [|[[file filename] url_key] rest IH];
        intros urls; cbn [upload_each]; [constructor|].
      destruct (extension_of _); constructor; [done|]. intros _. apply IH.
    + intros urls. constructor; [done|]. intros _. constructor.
  - unfold confirm_location. constructor; [done|]. intros r.
    destruct (py_found r) as [p|]; [|constructor].
    constructor; [done|]. intros _. constructor.
  - unfold update_participant_details. constructor; [done|]. intros r.
    destruct (py_found r) as [p|]; [|constructor].
    destruct (decide _); [apply calls_only_validated|].
    constructor; [done|]. intros _. constructor; [done|].
    intros [?|]; [apply calls_only_validated|constructor].
Qed.

(** X5.  The operations on one participant (avatar upload, registration,
    evidence upload, location confirmation, override), in any number and
    order and whether they succeed or fail, change no other participant's
    record and no event. *)
Theorem operations_touch_one_record (pid pid' : string)
    (ops : list operation) (w : world) :
  pid' ≠ pid →
  participants (db (requests get_avatar_url py_format pid ops w)) !! pid'
  = participants (db w) !! pid'
  ∧ events (db (requests get_avatar_url py_format pid ops w)) = events (db w).
Proof.
  intros Hne. revert w. unfold requests.
  induction ops as [|o ops IH]; intros w; cbn [fold_left]; [done|].
  destruct (IH (request get_avatar_url py_format pid o w)) as [-> ->].
  destruct (request_targets pid o w) as (A & p & -> & Hp).
  exact (run_targets pid pid' p w Hp Hne).
Qed.

(** X6.  The fields written at creation that identify a participant
    ([participant_id], [username], [event_code], [project_id] and
    [created_at]) are never changed afterwards: after any sequence of
    operations on any participant, each of them is, in every record, what
    it was. *)
Theorem identity_fields_never_change (pid pid' key : string)
    (ops : list operation) (w : world) :
  key ∈ identity_fields →
  field_of (requests get_avatar_url py_format pid ops w) pid' key
  = field_of w pid' key.
Proof.
  intros Hkey. apply (requests_frame get_avatar_url py_format pid pid' key ops w).
  apply Forall_true. intros o.
  unfold identity_fields in Hkey. rewrite !elem_of_cons in Hkey.
  destruct Hkey as [->|[->|[->|[->|[->|Hkey]]]]];
    [..|by apply elem_of_nil in Hkey];
    destruct o; cbn [written_by fmap list_fmap ParticipantUpdate.items fst];
    closed.
Qed.

(** *** Overrides in general *)

Lemma merge_update_lookup (partial old : dict) (k : string) :
  Database.merge_update partial old !! k
  = match partial !! k with
    | Some VNone | None => old !! k
    | Some v => Some v
    end.
Proof.
  unfold Database.merge_update. rewrite lookup_union, map_lookup_filter.
  destruct (partial !! k) as [v|]; cbn [mbind option_bind];
    [|by destruct (old !! k)].
  case_guard as Hv; simpl.
  - by destruct v, (old !! k).
  - assert (v = VNone) as ->
      by (unfold Database.non_null in Hv; cbn in Hv;
          by destruct (decide (v = VNone))).
    by destruct (old !! k).
Qed.

Lemma lookup_provided (items : list (string * value)) (k : string) :
  NoDup items.*1 →
  (list_to_map (List.filter provided items) : dict) !! k
  = match (list_to_map items : dict) !! k with
    | Some VNone => None
    | o => o
    end.
Proof.
  induction items as [|[k0 v0] items IH]; [done|].
  rewrite fmap_cons, NoDup_cons. intros [Hk0 Hnd].
  cbn [List.filter]. rewrite list_to_map_cons. cbn [fst snd].
  assert (Hfresh : (list_to_map items : dict) !! k0 = None)
    by by apply not_elem_of_list_to_map_1.
  unfold provided at 1. cbn [snd].
  destruct (decide (k = k0)) as [->|Hne].
  - rewrite lookup_insert_eq.
    destruct v0; rewrite ?list_to_map_cons, ?lookup_insert_eq; try done.
    by rewrite IH, Hfresh.
  - rewrite (lookup_insert_ne _ k0 k) by done.
    destruct v0; rewrite ?list_to_map_cons, ?lookup_insert_ne by done;
      by apply IH.
Qed.

Lemma update_data_lookup (updates : ParticipantUpdate.t) (k : string) :
  update_data_of updates !! k
  = match payload_field updates k with
    | Some VNone => None
    | o => o
    end.
Proof.
  apply lookup_provided. cbn [ParticipantUpdate.items fmap list_fmap fst].
  closed.
Qed.

Lemma update_data_empty (updates : ParticipantUpdate.t) :
  update_data_of updates = ∅ ↔ updates = no_updates.
Proof.
  split; [|by intros ->].
  intros Hempty.
  assert (Hk : ∀ k, match payload_field updates k with
                    | Some VNone => None
                    | o => o
                    end = None).
  { intros k. by rewrite <- update_data_lookup, Hempty. }
  destruct updates as [l0 l1 l2 l3 l4 l5 pct].
  pose proof (Hk "level_0_complete") as H0.
  pose proof (Hk "level_1_complete") as H1.
  pose proof (Hk "level_2_complete") as H2.
  pose proof (Hk "level_3_complete") as H3.
  pose proof (Hk "level_4_complete") as H4.
  pose proof (Hk "level_5_complete") as H5.
  pose proof (Hk "completion_percentage") as H6.
  clear Hk Hempty.
  unfold payload_field, ParticipantUpdate.items in *.
  cbn [ParticipantUpdate.level_0_complete
       ParticipantUpdate.level_1_complete ParticipantUpdate.level_2_complete
       ParticipantUpdate.level_3_complete ParticipantUpdate.level_4_complete
       ParticipantUpdate.level_5_complete
       ParticipantUpdate.completion_percentage] in *.
  rewrite !list_to_map_cons in *. cbn [fst snd] in *.
  rewrite lookup_insert_eq in H0.
  rewrite lookup_insert_ne, lookup_insert_eq in H1 by done.
  rewrite !lookup_insert_ne, lookup_insert_eq in H2 by done.
  rewrite !lookup_insert_ne, lookup_insert_eq in H3 by done.
  rewrite !lookup_insert_ne, lookup_insert_eq in H4 by done.
  rewrite !lookup_insert_ne, lookup_insert_eq in H5 by done.
  rewrite !lookup_insert_ne, lookup_insert_eq in H6 by done.
  destruct l0, l1, l2, l3, l4, l5, pct; done.
Qed.

(** X7.  An override stores, of its payload, exactly the fields that are
    not null: each such field takes the payload's value, every other field
    of the record (the null fields of the payload, and the fields the
    payload does not have) keeps its value, so no override can reset a
    field to null.  It writes to the store unless every field of the
    payload is null, and then it makes the fetch, one update and a second
    fetch. *)
Theorem override_merges_payload (w : world) (pid : string) (p : dict)
    (updates : ParticipantUpdate.t) :
  participants (db w) !! pid = Some p → p ≠ ∅ →
  let result := run w (update_participant_details pid updates) in
  (∀ k, field_of result.1 pid k
        = match payload_field updates k with
          | Some VNone | None => p !! k
          | Some v => Some v
          end)
  ∧ (∀ k v, p !! k = Some v → v ≠ VNone →
       ∃ v', field_of result.1 pid k = Some v' ∧ v' ≠ VNone)
  ∧ (updates ≠ no_updates →
       trace result.1
       = (trace w ++ [GetParticipant pid;
                      UpdateParticipant pid (update_data_of updates);
                      GetParticipant pid])%list)
  ∧ events (db result.1) = events (db w).
Proof.
  intros Hp Hne result.
  assert (Hstored : participants (db result.1) !! pid
                    = Some (Database.merge_update (update_data_of updates) p)
                    ∧ (updates ≠ no_updates →
                       trace result.1
                       = (trace w ++ [GetParticipant pid;
                            UpdateParticipant pid (update_data_of updates);
                            GetParticipant pid])%list)
                    ∧ events (db result.1) = events (db w)).
  { subst result. unfold update_participant_details. run_step.
    rewrite Hp, (py_found_some _ Hne).
    destruct (decide (update_data_of updates = ∅)) as [Hempty|Hdata].
    - rewrite run_validated. cbn [fst db log].
      rewrite Hempty, merge_update_empty.
      split; [done|]. split; [|done].
      intros Hsome. by apply update_data_empty in Hempty.
    - run_step. unfold Database.update_participant.
      cbn [db log with_db participants events]. rewrite Hp.
      cbn [db log with_db participants events].
      rewrite lookup_insert_eq, run_validated.
      cbn [fst db log with_db participants events trace].
      rewrite lookup_insert_eq, <- !app_assoc. done. }
  destruct Hstored as (Hstored & Htrace & Hevents).
  assert (Hfield : ∀ k, field_of result.1 pid k
                        = match payload_field updates k with
                          | Some VNone | None => p !! k
                          | Some v => Some v
                          end).
  { intros k. unfold field_of. rewrite Hstored. cbn [mbind option_bind].
    rewrite merge_update_lookup, update_data_lookup.
    by destruct (payload_field updates k) as [[]|]. }
  split_and!; [done| |done..].
  intros k v Hk Hv. rewrite Hfield, Hk.
  destruct (payload_field updates k) as [[]|]; eauto.
Qed.


(** *** After a successful initialisation *)

(** What an initialisation that passes its gates returns and stores. *)
Lemma init_stores (w : world) (data : ParticipantInit.t) (ev : dict) :
  let code := ParticipantInit.event_code data in
  let user := ParticipantInit.username data in
  let pid := token_source (env w) (tick w) in
  let result := run w (init_participant MAP_WIDTH MAP_HEIGHT data) in
  py_found (events (db w) !! code) = Some ev →
  event_active ev = true → event_full ev = Some false →
  Database.check_username_exists (db w) code user = false →
  20 <= MAP_WIDTH → 20 <= MAP_HEIGHT →
  ∃ x y,
    10 <= x <= MAP_WIDTH - 10 ∧ 10 <= y <= MAP_HEIGHT - 10
    ∧ result.2 = Returned (ParticipantInitResponse.mk pid user code x y)
    ∧ participants (db result.1)
      = <[pid := new_participant data pid x y
                   (clock (env w) (S (S (S (tick w)))))]>
          (participants (db w))
    ∧ events (db result.1)
      = alter Database.increment_count code (events (db w))
    ∧ env result.1 = env w
    ∧ tick result.1 = S (S (S (S (tick w))))
    ∧ bucket result.1 = bucket w.
Proof.
  intros code user pid result Hev Hactive Hfull Hfree HW HH. subst result.
  destruct (randint_defined 10 (MAP_WIDTH - 10)
              (random_source (env w) (S (tick w)))) as [x Hx]; [lia|].
  destruct (randint_defined 10 (MAP_HEIGHT - 10)
              (random_source (env w) (S (S (tick w))))) as [y Hy]; [lia|].
  exists x, y.
  split; [by apply randint_bounds in Hx|].
  split; [by apply randint_bounds in Hy|].
  unfold init_participant. fold code user. run_step.
  rewrite Hev, Hactive. cbn [negb]. rewrite Hfull. run_step.
  rewrite Hfree. run_step. rewrite Hx. run_step. rewrite Hy. run_step.
  fold pid.
  destruct (new_participant_fields data pid x y
              (clock (env w) (S (S (S (tick w))))))
    as (Fid & Fuser & Fcode & _).
  rewrite create_participant_free; unfold Database.str_field;
    rewrite ?Fid, ?Fuser, ?Fcode; [|done].
  run_step. done.
Qed.

Lemma new_participant_nonempty (data : ParticipantInit.t) (pid : string)
    (x y t : Z) :
  new_participant data pid x y t ≠ ∅.
Proof. unfold new_participant. rewrite list_to_map_cons. apply insert_non_empty. Qed.

(** The response a freshly created record validates to. *)
Lemma construct_new_participant (data : ParticipantInit.t) (pid : string)
    (x y t : Z) :
  ParticipantResponse.construct (new_participant data pid x y t)
  = Some (ParticipantResponse.mk pid (ParticipantInit.username data)
            (ParticipantInit.event_code data) x y false None None None None
            true None None None None None None None).
Proof. reflexivity. Qed.

(** X8.  A participant that [init_participant] has just created can be
    fetched under the id of the response: the fetch answers the record with
    the request's username and event code, the coordinates of the response,
    [location_confirmed] false, [active] true, and no avatar, suit colour,
    registration time, evidence or level flag yet. *)
Theorem init_then_fetch (w : world) (data : ParticipantInit.t) (ev : dict) :
  let code := ParticipantInit.event_code data in
  let user := ParticipantInit.username data in
  let created := run w (init_participant MAP_WIDTH MAP_HEIGHT data) in
  py_found (events (db w) !! code) = Some ev →
  event_active ev = true → event_full ev = Some false →
  Database.check_username_exists (db w) code user = false →
  20 <= MAP_WIDTH → 20 <= MAP_HEIGHT →
  ∃ r, created.2 = Returned r
    ∧ (run created.1
         (get_participant_info (ParticipantInitResponse.participant_id r))).2
      = Returned (ParticipantResponse.mk
                    (ParticipantInitResponse.participant_id r) user code
                    (ParticipantInitResponse.starting_x r)
                    (ParticipantInitResponse.starting_y r)
                    false None None None None true None
                    None None None None None None).
Proof.
  intros code user created Hev Hactive Hfull Hfree HW HH.
  destruct (init_stores w data ev Hev Hactive Hfull Hfree HW HH)
    as (x & y & _ & _ & Hout & Hstored & _).
  fold created in Hout, Hstored. eexists. split; [exact Hout|].
  cbn [ParticipantInitResponse.participant_id
       ParticipantInitResponse.starting_x ParticipantInitResponse.starting_y].
  unfold get_participant_info. run_step. rewrite Hstored, lookup_insert_eq.
  rewrite (py_found_some _ (new_participant_nonempty _ _ _ _ _)).
  by rewrite run_validated, construct_new_participant.
Qed.

(** X9.  A participant that has just been created cannot register: until
    an avatar is uploaded, [register_participant] answers 400 and stores
    nothing, whatever suit colour and appearance it is given. *)
Theorem init_then_register_is_refused (w : world) (data : ParticipantInit.t)
    (ev : dict) (suit look : option string) :
  let code := ParticipantInit.event_code data in
  let user := ParticipantInit.username data in
  let created := run w (init_participant MAP_WIDTH MAP_HEIGHT data) in
  py_found (events (db w) !! code) = Some ev →
  event_active ev = true → event_full ev = Some false →
  Database.check_username_exists (db w) code user = false →
  20 <= MAP_WIDTH → 20 <= MAP_HEIGHT →
  ∃ r, created.2 = Returned r
    ∧ let registered :=
        run created.1
          (register_participant
             (ParticipantRegister.mk
                (ParticipantInitResponse.participant_id r) suit look)) in
      registered.2
      = Failed (HTTPException 400 "Avatar must be uploaded before registration")
      ∧ db registered.1 = db created.1.
Proof.
  intros code user created Hev Hactive Hfull Hfree HW HH.
  destruct (init_stores w data ev Hev Hactive Hfull Hfree HW HH)
    as (x & y & _ & _ & Hout & Hstored & _).
  fold created in Hout, Hstored. eexists. split; [exact Hout|].
  cbn [ParticipantInitResponse.participant_id].
  unfold register_participant. cbn [ParticipantRegister.participant_id].
  run_step. rewrite Hstored, lookup_insert_eq.
  rewrite (py_found_some _ (new_participant_nonempty _ _ _ _ _)).
  assert (py_get (new_participant data (token_source (env w) (tick w)) x y
                    (clock (env w) (S (S (S (tick w)))))) "portrait_url"
          = VNone) as ->.
    by reflexivity.
  done.
Qed.

(** The store, the oracle and the clock position after an avatar upload
    that passes its checks. *)
Lemma upload_avatar_stores_helper (w : world) (pid : string) (p : dict)
    (portrait icon : UploadFile.t) :
  participants (db w) !! pid = Some p → p ≠ ∅ →
  allowed_type (UploadFile.content_type portrait) = true →
  allowed_type (UploadFile.content_type icon) = true →
  ∀ event_code, p !! "event_code" = Some event_code →
  let result := run w (upload_avatar get_avatar_url py_format pid portrait icon) in
  participants (db result.1)
  = <[pid := <["portrait_url" :=
                 VStr (get_avatar_url
                         ("avatars/" +:+ fstr py_format event_code +:+ "/"
                          +:+ pid +:+ "/portrait.png"))]>
               (<["icon_url" :=
                    VStr (get_avatar_url
                            ("avatars/" +:+ fstr py_format event_code +:+ "/"
                             +:+ pid +:+ "/icon.png"))]> p)]>
      (participants (db w))
  ∧ env result.1 = env w ∧ tick result.1 = tick w.
Proof.
  intros Hp Hne Hportrait Hicon event_code Hcode result. subst result.
  unfold upload_avatar. run_step.
  rewrite Hp, (py_found_some _ Hne). cbn [check_types].
  rewrite Hportrait, Hicon, Hcode. run_step.
  unfold Database.update_participant.
  cbn [db log with_db with_object participants events]. rewrite Hp.
  cbn [fst snd db log with_db with_object participants events env tick].
  by rewrite !list_to_map_cons, !list_to_map_nil, !merge_update_insert,
    merge_update_empty by done.
Qed.

(** *** The whole way: create, upload the avatar, register *)

(** X10.  A request passing the gates of [init_participant], then an
    avatar upload of two accepted files for the returned id, then a
    registration: provided the storage client never hands out an empty
    URL, the registration succeeds and answers the participant with the
    identity and coordinates of the creation, the two avatar URLs, the time
    of the registration call and [active] true. *)
Theorem create_upload_register (w : world) (data : ParticipantInit.t)
    (ev : dict) (portrait icon : UploadFile.t) (suit look : option string) :
  let code := ParticipantInit.event_code data in
  let user := ParticipantInit.username data in
  let created := run w (init_participant MAP_WIDTH MAP_HEIGHT data) in
  py_found (events (db w) !! code) = Some ev →
  event_active ev = true → event_full ev = Some false →
  Database.check_username_exists (db w) code user = false →
  20 <= MAP_WIDTH → 20 <= MAP_HEIGHT →
  allowed_type (UploadFile.content_type portrait) = true →
  allowed_type (UploadFile.content_type icon) = true →
  (∀ path, get_avatar_url path ≠ "") →
  ∃ r, created.2 = Returned r
    ∧ let pid := ParticipantInitResponse.participant_id r in
      let uploaded :=
        run created.1 (upload_avatar get_avatar_url py_format pid portrait icon) in
      let registered :=
        run uploaded.1
          (register_participant (ParticipantRegister.mk pid suit look)) in
      registered.2
      = Returned (ParticipantResponse.mk pid user code
                    (ParticipantInitResponse.starting_x r)
                    (ParticipantInitResponse.starting_y r)
                    false
                    (Some (get_avatar_url
                             ("avatars/" +:+ code +:+ "/" +:+ pid
                              +:+ "/portrait.png")))
                    (Some (get_avatar_url
                             ("avatars/" +:+ code +:+ "/" +:+ pid
                              +:+ "/icon.png")))
                    (if supplied suit then suit else None)
                    (Some (clock (env w) (S (S (S (S (tick w)))))))
                    true None None None None None None None).
Proof.
  intros code user created Hev Hactive Hfull Hfree HW HH Hportrait Hicon Hurl.
  destruct (init_stores w data ev Hev Hactive Hfull Hfree HW HH)
    as (x & y & _ & _ & Hout & Hstored & _ & Henv & Htick & _).
  fold created in Hout, Hstored, Henv, Htick.
  eexists. split; [exact Hout|].
  cbn [ParticipantInitResponse.participant_id
       ParticipantInitResponse.starting_x ParticipantInitResponse.starting_y].
  set (pid := token_source (env w) (tick w)) in *.
  set (fresh := new_participant data pid x y _) in *.
  assert (Hfresh : participants (db created.1) !! pid = Some fresh)
    by by rewrite Hstored, lookup_insert_eq.
  assert (Hcode : fresh !! "event_code" = Some (VStr code))
    by apply new_participant_fields.
  (* the upload *)
  destruct (upload_avatar_stores_helper created.1 pid fresh portrait icon
              Hfresh (new_participant_nonempty _ _ _ _ _) Hportrait Hicon
              (VStr code) Hcode)
    as (Hup & Henv' & Htick').
  cbn [fstr] in Hup.
  set (uploaded := run created.1 _) in *.
  set (with_avatar := <["portrait_url" := _]> (<["icon_url" := _]> fresh)) in *.
  assert (Huploaded : participants (db uploaded.1) !! pid = Some with_avatar)
    by by rewrite Hup, lookup_insert_eq.
  (* the registration *)
  destruct (register_stores uploaded.1 (ParticipantRegister.mk pid suit look)
              with_avatar Huploaded) as (_ & _ & ->).
  { apply insert_non_empty. }
  { eexists. split; [by subst with_avatar; lookups|apply Hurl]. }
  { eexists. split; [by subst with_avatar; lookups|apply Hurl]. }
  rewrite Henv', Htick', Henv, Htick.
  subst with_avatar fresh. unfold registration_updates, supplied.
  cbn [ParticipantRegister.suit_color ParticipantRegister.appearance
       value_of_str truthy].
  destruct suit as [color|], look as [style|];
    cbn [value_of_str truthy];
    repeat match goal with
           | |- context [String.eqb ?s ""] => destruct (String.eqb s "")
           end;
    reflexivity.
Qed.

(** *** A second initialisation for the same username *)

Lemma py_found_inv (r : option dict) (d : dict) :
  py_found r = Some d → r = Some d ∧ d ≠ ∅.
Proof.
  unfold py_found. destruct r as [d'|]; [|done].
  destruct (decide (d' = ∅)); [done|]. by intros [= ->].
Qed.

Lemma event_active_increment (ev : dict) :
  event_active (Database.increment_count ev) = event_active ev.
Proof.
  unfold event_active, py_get_default, Database.increment_count.
  by rewrite lookup_insert_ne.
Qed.

(** X11.  Run one after the other, two [init_participant] requests for
    the same event and username never both succeed: after a first request
    that returned a response, a second one (whatever its [project_id])
    returns none, and while the event still has room its answer is 409
    "Username already taken". *)
Theorem init_twice_never_succeeds (w : world) (data again : ParticipantInit.t)
    (ev : dict) :
  let code := ParticipantInit.event_code data in
  let user := ParticipantInit.username data in
  let first := run w (init_participant MAP_WIDTH MAP_HEIGHT data) in
  let second := run first.1 (init_participant MAP_WIDTH MAP_HEIGHT again) in
  py_found (events (db w) !! code) = Some ev →
  event_active ev = true → event_full ev = Some false →
  Database.check_username_exists (db w) code user = false →
  20 <= MAP_WIDTH → 20 <= MAP_HEIGHT →
  ParticipantInit.event_code again = code →
  ParticipantInit.username again = user →
  (∃ r, first.2 = Returned r)
  ∧ (∀ r, second.2 ≠ Returned r)
  ∧ (event_full (Database.increment_count ev) = Some false →
       second.2 = Failed (HTTPException 409 "Username already taken"))
  ∧ db second.1 = db first.1.
Proof.
  intros code user first second Hev Hactive Hfull Hfree HW HH Hcode Huser.
  destruct (init_stores w data ev Hev Hactive Hfull Hfree HW HH)
    as (x & y & _ & _ & Hout & Hstored & Hevents & _).
  fold first in Hout, Hstored, Hevents. fold code in Hevents.
  split; [eauto|].
  apply py_found_inv in Hev as [Hev Hne].
  assert (Hev' : py_found (events (db first.1) !! code)
                 = Some (Database.increment_count ev)).
  { rewrite Hevents, lookup_alter_eq, Hev. cbn [fmap option_fmap option_map].
    apply py_found_some. apply insert_non_empty. }
  assert (Htaken : Database.check_username_exists (db first.1) code user
                   = true).
  { unfold Database.check_username_exists. apply bool_decide_eq_true.
    apply map_Exists_lookup. do 2 eexists. rewrite Hstored.
    split; [apply lookup_insert_eq|]. split; apply new_participant_fields. }
  subst second. unfold init_participant. rewrite Hcode, Huser.
  fold code user. run_step.
  rewrite Hev', event_active_increment, Hactive. cbn [negb].
  destruct (event_full (Database.increment_count ev)) as [[|]|];
    run_step; [by split_and!| |by split_and!].
  rewrite Htaken. by split_and!.
Qed.

(** *** Evidence files that declare no type *)

(** X12.  [upload_evidence] uploads its three files in turn and writes
    the record only after the third.  When a file declares no content type
    the request fails with [TypeError] at that file: the files before it
    are already in the bucket (none for the soil sample, the soil sample
    for the star field, both for the flora recording), and the record has
    not been written. *)
Theorem upload_evidence_fails_midway (w : world) (pid : string) (p : dict)
    (event_code : value) (soil stars flora : UploadFile.t)
    (ext1 ext2 : string) :
  participants (db w) !! pid = Some p → p ≠ ∅ →
  p !! "event_code" = Some event_code →
  let result :=
    run w (upload_evidence get_avatar_url py_format pid soil stars flora) in
  let path1 := evidence_path py_format event_code pid "soil_sample" ext1 in
  let path2 := evidence_path py_format event_code pid "star_field" ext2 in
  let stored1 := <[path1 := (UploadFile.content soil,
                             UploadFile.content_type soil)]> (bucket w) in
  let stored2 := <[path2 := (UploadFile.content stars,
                             UploadFile.content_type stars)]> stored1 in
  (UploadFile.content_type soil = None →
     result = (log (GetParticipant pid) w, Failed TypeError))
  ∧ (extension_of (UploadFile.content_type soil) = Some ext1 →
     UploadFile.content_type stars = None →
     result.2 = Failed TypeError ∧ bucket result.1 = stored1
     ∧ db result.1 = db w)
  ∧ (extension_of (UploadFile.content_type soil) = Some ext1 →
     extension_of (UploadFile.content_type stars) = Some ext2 →
     UploadFile.content_type flora = None →
     result.2 = Failed TypeError ∧ bucket result.1 = stored2
     ∧ db result.1 = db w).
Proof.
  intros Hp Hne Hcode result path1 path2 stored1 stored2. subst result.
  unfold upload_evidence. run_step.
  rewrite Hp, (py_found_some _ Hne), Hcode. cbn [upload_each].
  split_and!.
  - intros ->. cbn [extension_of bind]. by run_step.
  - intros -> ->. cbn [extension_of bind]. run_step. done.
  - intros -> -> ->. cbn [extension_of bind]. run_step. done.
Qed.

(** *** Substrings and extensions *)

Lemma prefix_spec (needle haystack : string) :
  String.prefix needle haystack = true ↔ ∃ rest, haystack = needle +:+ rest.
Proof.
  revert haystack. induction needle as [|c needle IH]; intros haystack.
  - destruct haystack; cbn; split; eauto.
  - destruct haystack as [|c' haystack]; cbn.
    + split; [done|]. by intros [rest Hrest].
    + destruct (ascii_dec c c') as [->|Hne].
      * rewrite IH. split; intros [rest Hrest]; exists rest.
        -- by rewrite Hrest.
        -- by injection Hrest.
      * split; [done|]. intros [rest Hrest]. by injection Hrest.
Qed.

Lemma str_in_spec (needle haystack : string) :
  str_in needle haystack = true
  ↔ ∃ before after, haystack = before +:+ needle +:+ after.
Proof.
  induction haystack as [|c haystack IH]; cbn [str_in].
  - rewrite orb_false_r, prefix_spec. split.
    + intros [rest Hrest]. by exists "", rest.
    + intros ([|c before] & after & Hrest); [by exists after|done].
  - rewrite orb_true_iff, prefix_spec, IH. split.
    + intros [[rest Hrest]|(before & after & Hrest)].
      * by exists "", rest.
      * exists (String c before), after. by rewrite Hrest.
    + intros ([|c' before] & after & Hrest).
      * left. by exists after.
      * right. exists before, after. by injection Hrest.
Qed.

(** X13.  The test [upload_evidence] makes on a content type is a
    substring test.  A declared type gets mp4 exactly when ["video"] occurs
    somewhere in it, png exactly when ["video"] does not occur and ["png"]
    does, and jpg exactly when neither occurs; so a type naming both, such
    as video/png, is stored as mp4. *)
Theorem extension_by_substring (t : string) :
  let occurs needle := ∃ before after, t = before +:+ needle +:+ after in
  (extension_of (Some t) = Some "mp4" ↔ occurs "video")
  ∧ (extension_of (Some t) = Some "png" ↔ ¬ occurs "video" ∧ occurs "png")
  ∧ (extension_of (Some t) = Some "jpg" ↔ ¬ occurs "video" ∧ ¬ occurs "png").
Proof.
  intros occurs. subst occurs. cbn beta.
  rewrite <- !str_in_spec. unfold extension_of.
  destruct (str_in "video" t), (str_in "png" t);
    split_and!; split; try done; try (by intros []); by intros [].
Qed.

(** *** Events that lack a field *)

(** X14.  [init_participant] reads the event with defaults: a document
    without the key [active] is active, without [participant_count] it
    holds 0 and without [max_participants] it admits 500, so an event with
    none of the three admits a free username.  A key that is there with
    the value [None] is not defaulted: a null [active] ends the event
    (410), and a null counter makes the comparison raise [TypeError].  In
    neither case is anything stored. *)
Theorem init_reads_event_with_defaults (w : world) (data : ParticipantInit.t)
    (ev : dict) :
  let code := ParticipantInit.event_code data in
  let user := ParticipantInit.username data in
  let result := run w (init_participant MAP_WIDTH MAP_HEIGHT data) in
  events (db w) !! code = Some ev → ev ≠ ∅ →
  (ev !! "active" = None → ev !! "participant_count" = None →
   ev !! "max_participants" = None →
   Database.check_username_exists (db w) code user = false →
   20 <= MAP_WIDTH → 20 <= MAP_HEIGHT →
   ∃ r, result.2 = Returned r)
  ∧ (ev !! "active" = None → ev !! "max_participants" = None →
     ∀ count, ev !! "participant_count" = Some (VInt count) → 500 <= count →
     result = (log (GetEvent code) w,
               Failed (HTTPException 409 "Event is full")))
  ∧ (ev !! "active" = Some VNone →
     result = (log (GetEvent code) w,
               Failed (HTTPException 410 "Event has ended")))
  ∧ (event_active ev = true →
     ev !! "participant_count" = Some VNone
     ∨ ev !! "max_participants" = Some VNone →
     result = (log (GetEvent code) w, Failed TypeError)).
Proof.
  intros code user result Hev Hne.
  assert (Hfound : py_found (events (db w) !! code) = Some ev)
    by by rewrite Hev, py_found_some.
  split_and!.
  - intros Hactive Hcount Hmax Hfree HW HH.
    destruct (init_stores w data ev Hfound) as (x & y & _ & _ & Hout & _);
      try done.
    + unfold event_active, py_get_default. by rewrite Hactive.
    + unfold event_full, py_get_default. by rewrite Hcount, Hmax.
    + eauto.
  - intros Hactive Hmax count Hcount Hfull. subst result.
    unfold init_participant. fold code. run_step. rewrite Hfound.
    assert (event_active ev = true) as ->
      by (unfold event_active, py_get_default; by rewrite Hactive).
    assert (event_full ev = Some true) as ->; [|done].
    unfold event_full, py_get_default. rewrite Hcount, Hmax. simpl.
    unfold py_ge. cbn [as_number].
    destruct (Z.geb_spec count 500); [done|lia].
  - intros Hactive. subst result.
    unfold init_participant. fold code. run_step. rewrite Hfound.
    unfold event_active, py_get_default. by rewrite Hactive.
  - intros Hactive Hnull. subst result.
    unfold init_participant. fold code. run_step.
    rewrite Hfound, Hactive. cbn [negb].
    assert (event_full ev = None) as ->; [|done].
    unfold event_full, py_get_default.
    destruct Hnull as [-> | ->]; cbn [default py_ge as_number]; [done|].
    by destruct (default (VInt 0) (ev !! "participant_count")).
Qed.

End Lifecycle.

(** * The evidence generator and the star catalog *)

Section EvidenceFacts.
Import Biome.

Lemma ends_with_spec (s suffix : string) :
  Evidence.ends_with s suffix = true ↔ ∃ before, s = before +:+ suffix.
Proof.
  induction s as [|c s IH]; cbn [Evidence.ends_with].
  - rewrite orb_false_r, String.eqb_eq. split.
    + intros <-. by exists "".
    + intros ([|c before] & Hs); [done|discriminate Hs].
  - rewrite orb_true_iff, String.eqb_eq, IH. split.
    + intros [<-|[before ->]]; [by exists ""|by exists (String c before)].
    + intros ([|c' before] & Hs); [by left|].
      right. exists before. by injection Hs.
Qed.

(** X15.  The three files the Level 1 client posts are the three the
    evidence route expects (soil_sample, star_field, flora_recording), and
    the types it declares give them, on the server, the extensions png, png
    and, for a flora path that ends in ".mp4", mp4 (png for any other
    path).  For the paths [main] passes, the name the server stores each
    file under is the name the client sent. *)
Theorem client_files_keep_their_names (flora_path : string) :
  (Evidence.files flora_path).*1
  = ["soil_sample"; "star_field"; "flora_recording"]
  ∧ (λ f, extension_of (Some f.2.2)) <$> Evidence.files flora_path
    = [Some "png"; Some "png";
       Some (if Evidence.ends_with flora_path ".mp4" then "mp4" else "png")]
  ∧ ((∃ before, flora_path = before +:+ ".mp4") →
     extension_of (Some (Evidence.flora_content_type flora_path))
     = Some "mp4")
  ∧ Forall (λ f, ∃ ext, extension_of (Some f.2.2) = Some ext
                        ∧ f.2.1 = f.1 +:+ "." +:+ ext)
           (Evidence.files Evidence.flora_path).
Proof.
  split; [done|]. split.
  { cbn. unfold Evidence.flora_content_type.
    by destruct (Evidence.ends_with flora_path ".mp4"). }
  split.
  { intros Hmp4. apply ends_with_spec in Hmp4.
    unfold Evidence.flora_content_type. by rewrite Hmp4. }
  repeat constructor; eexists; split; reflexivity.
Qed.

(** X16.  Every label [get_biome] can return is a key of
    [BIOME_EVIDENCE] with a soil, a star and a flora prompt, so the
    lookups of [generate_images] and [generate_flora_video] on the biome of
    any coordinates raise no [KeyError]; a label that is not one of the
    four (a lower-case one, for instance) does raise it.  The prompts tell
    the biomes apart: the four soil prompts are pairwise different, and so
    are the four star prompts and the four flora prompts. *)
Theorem prompts_exist_for_every_biome (x y : Z) :
  (∃ soil star flora,
     Evidence.image_prompts (get_biome x y) = inr (soil, star)
     ∧ Evidence.flora_prompt (get_biome x y) = inr flora)
  ∧ (∀ label, label ∉ biomes →
       Evidence.image_prompts label = inl (KeyError label)
       ∧ Evidence.flora_prompt label = inl (KeyError label))
  ∧ (∀ key, key ∈ ["soil_prompt"; "star_prompt"; "flora_prompt"] →
       NoDup ((λ label, Evidence.prompt label key) <$> biomes)).
Proof.
  split_and!.
  - pose proof (get_biome_in_biomes x y) as Hin.
    unfold biomes in Hin. rewrite !elem_of_cons in Hin.
    destruct Hin as [->|[->|[->|[->|Hin]]]];
      [..|by apply elem_of_nil in Hin]; do 3 eexists; split; reflexivity.
  - intros label Hlabel.
    assert (Evidence.BIOME_EVIDENCE !! label = None) as Hnone.
    { apply not_elem_of_list_to_map_1. exact Hlabel. }
    unfold Evidence.image_prompts, Evidence.flora_prompt.
    by rewrite Hnone.
  - intros key Hkey. rewrite !elem_of_cons in Hkey.
    destruct Hkey as [->|[->|[->|Hkey]]]; [..|by apply elem_of_nil in Hkey];
      apply (bool_decide_unpack _); vm_compute; exact I.
Qed.

(** X17.  The star catalog speaks of the same biomes as [get_biome]: for
    the biome of any coordinates it has exactly three patterns, each filed
    under the quadrant the point lies in (north is [y >= 50], west is
    [x < 50]), and it has no row for a biome that [get_biome] does not
    return. *)
Theorem catalog_matches_get_biome (x y : Z) :
  length (StarCatalog.patterns (get_biome x y)) = 3%nat
  ∧ Forall (λ r, StarCatalog.quadrant r = compass x y)
           (StarCatalog.patterns (get_biome x y))
  ∧ Forall (λ r, StarCatalog.biome r ∈ biomes) StarCatalog.STAR_CATALOG_DATA.
Proof.
  split_and!; [| |by repeat constructor; apply (bool_decide_unpack _)].
  - pose proof (get_biome_in_biomes x y) as Hin.
    unfold biomes in Hin. rewrite !elem_of_cons in Hin.
    destruct Hin as [->|[->|[->|[->|Hin]]]];
      [..|by apply elem_of_nil in Hin]; reflexivity.
  - unfold compass, get_biome.
    destruct (Z.ltb_spec x 50), (Z.geb_spec x 50),
             (Z.ltb_spec y 50), (Z.geb_spec y 50);
      try lia; cbn; by repeat constructor.
Qed.

End EvidenceFacts.

(** ** The further properties on the scenarios *)

(** No participant has the id ffffffff: the fetch answers 404. *)
Lemma participant_routes_answer_404_witness :
  participants (db example_world) !! "ffffffff" = None
  ∧ run example_world (get_participant_info "ffffffff")
    = (log (GetParticipant "ffffffff") example_world, Failed not_found).
Proof.
  assert (H : participants (db example_world) !! "ffffffff" = None)
    by reflexivity.
  split; [exact H|].
  exact (proj1 (participant_routes_answer_404 example_url example_format
                  example_world "ffffffff" (or_introl H))).
Defined.

(** Alice's GIF portrait is refused. *)
Lemma upload_avatar_checks_types_witness :
  allowed_type (UploadFile.content_type gif_file) = false
  ∧ (run example_world
         (upload_avatar example_url example_format "a1b2c3d4"
                        gif_file png_file)).2
    = Failed (HTTPException 400
                "Invalid portrait file type. Must be PNG or JPEG.").
Proof.
  assert (H : allowed_type (UploadFile.content_type gif_file) = false)
    by reflexivity.
  split; [exact H|].
  destruct alice_stored as [Hp Hne].
  destruct (upload_avatar_checks_types example_url example_format
              example_world "a1b2c3d4" alice gif_file png_file Hp Hne)
    as [Hbad _].
  exact (f_equal snd (Hbad H)).
Defined.

(** Alice's JPEG portrait is stored under the path portrait.png. *)
Lemma upload_avatar_stores_witness :
  allowed_type (UploadFile.content_type jpeg_file) = true
  ∧ bucket (run example_world
              (upload_avatar example_url example_format "a1b2c3d4"
                             jpeg_file png_file)).1
    !! "avatars/E2/a1b2c3d4/portrait.png"
    = Some (UploadFile.content jpeg_file, Some "image/jpeg").
Proof.
  assert (H1 : allowed_type (UploadFile.content_type jpeg_file) = true)
    by reflexivity.
  assert (H2 : allowed_type (UploadFile.content_type png_file) = true)
    by reflexivity.
  split; [exact H1|].
  destruct alice_stored as [Hp Hne].
  destruct (upload_avatar_stores example_url example_format example_world
              "a1b2c3d4" alice jpeg_file png_file Hp Hne H1 H2) as [_ Hok].
  destruct (Hok (VStr "E2") eq_refl) as (_ & Hbucket & _).
  rewrite Hbucket. reflexivity.
Defined.

(** Alice's location is confirmed at (-5, 400), outside the map. *)
Lemma confirm_location_overwrites_witness :
  field_of (run example_world (confirm_location "a1b2c3d4" (-5) 400)).1
           "a1b2c3d4" "x" = Some (VInt (-5))
  ∧ field_of (run example_world (confirm_location "a1b2c3d4" (-5) 400)).1
             "a1b2c3d4" "username" = Some (VStr "alice").
Proof.
  destruct alice_stored as [Hp Hne].
  destruct (confirm_location_overwrites example_world "a1b2c3d4" alice
              (-5) 400 Hp Hne) as (_ & Hstored & _ & Hrest & _).
  split.
  - unfold field_of. rewrite Hstored. reflexivity.
  - rewrite Hrest; [reflexivity|]. by apply (bool_decide_unpack _).
Defined.

(** Carol's operations leave Alice's record as it is. *)
Lemma operations_touch_one_record_witness :
  let ops := [UploadAvatar png_file jpeg_file; Register (Some "teal") None;
              ConfirmLocation 61 12; Override (only_level_2 true)] in
  "a1b2c3d4" ≠ "0badcafe"
  ∧ participants (db (requests example_url example_format "0badcafe" ops
                               example_world)) !! "a1b2c3d4"
    = Some alice.
Proof.
  intros ops.
  assert (Hne : "a1b2c3d4" ≠ "0badcafe") by discriminate.
  split; [exact Hne|].
  destruct (operations_touch_one_record example_url example_format
              "0badcafe" "a1b2c3d4" ops example_world Hne) as [Hsame _].
  rewrite Hsame. reflexivity.
Defined.

(** Carol's operations leave her username as it is. *)
Lemma identity_fields_never_change_witness :
  let ops := [UploadAvatar png_file jpeg_file; Register (Some "teal") None;
              ConfirmLocation 61 12; Override (only_level_2 true)] in
  "username" ∈ identity_fields
  ∧ field_of (requests example_url example_format "0badcafe" ops
                       example_world) "0badcafe" "username"
    = Some (VStr "carol").
Proof.
  intros ops.
  assert (Hkey : "username" ∈ identity_fields)
    by by apply (bool_decide_unpack _).
  split; [exact Hkey|].
  rewrite (identity_fields_never_change example_url example_format
             "0badcafe" "0badcafe" "username" ops example_world Hkey).
  reflexivity.
Defined.

(** An override of Alice's [level_2_complete] writes once. *)
Lemma override_merges_payload_witness :
  only_level_2 true ≠ no_updates
  ∧ field_of (run example_world
                (update_participant_details "a1b2c3d4" (only_level_2 true))).1
             "a1b2c3d4" "level_2_complete" = Some (VBool true)
  ∧ field_of (run example_world
                (update_participant_details "a1b2c3d4" (only_level_2 true))).1
             "a1b2c3d4" "level_3_complete" = None.
Proof.
  split; [discriminate|].
  destruct alice_stored as [Hp Hne].
  destruct (override_merges_payload example_world "a1b2c3d4" alice
              (only_level_2 true) Hp Hne) as (Hfield & _).
  split; rewrite Hfield; reflexivity.
Defined.

(** The open event E2 admits bob. *)
Lemma bob_is_admitted :
  py_found (events (db example_world) !! "E2") = Some open_event
  ∧ event_active open_event = true
  ∧ event_full open_event = Some false
  ∧ Database.check_username_exists (db example_world) "E2" "bob" = false.
Proof. by split_and!. Qed.

(** Bob is created and fetched. *)
Lemma init_then_fetch_witness :
  ∃ r, (run example_world (init_participant 100 100 bob)).2 = Returned r
    ∧ ∃ fetched,
        (run (run example_world (init_participant 100 100 bob)).1
             (get_participant_info
                (ParticipantInitResponse.participant_id r))).2
        = Returned fetched
        ∧ ParticipantResponse.username fetched = "bob".
Proof.
  destruct bob_is_admitted as (H1 & H2 & H3 & H4).
  destruct (init_then_fetch 100 100 example_world bob open_event
              H1 H2 H3 H4) as (r & Hr & Hfetch); [lia..|].
  exists r. split; [exact Hr|]. eexists. split; [exact Hfetch|reflexivity].
Defined.

(** Bob is created and cannot register yet. *)
Lemma init_then_register_is_refused_witness :
  ∃ r, (run example_world (init_participant 100 100 bob)).2 = Returned r
    ∧ (run (run example_world (init_participant 100 100 bob)).1
           (register_participant
              (ParticipantRegister.mk
                 (ParticipantInitResponse.participant_id r)
                 (Some "teal") None))).2
      = Failed (HTTPException 400
                  "Avatar must be uploaded before registration").
Proof.
  destruct bob_is_admitted as (H1 & H2 & H3 & H4).
  destruct (init_then_register_is_refused 100 100 example_world bob
              open_event (Some "teal") None H1 H2 H3 H4)
    as (r & Hr & Hrefused & _); [lia..|].
  exists r. split; [exact Hr|exact Hrefused].
Defined.

Lemma example_url_nonempty (path : string) : example_url path ≠ "".
Proof. discriminate. Qed.

(** Bob is created, uploads his avatar and registers. *)
Lemma create_upload_register_witness :
  ∃ r, (run example_world (init_participant 100 100 bob)).2 = Returned r
    ∧ ∃ registered,
        (run (run (run example_world (init_participant 100 100 bob)).1
                  (upload_avatar example_url example_format
                     (ParticipantInitResponse.participant_id r)
                     png_file jpeg_file)).1
             (register_participant
                (ParticipantRegister.mk
                   (ParticipantInitResponse.participant_id r)
                   (Some "teal") None))).2
        = Returned registered
        ∧ ParticipantResponse.registered_at registered = Some 1004
        ∧ ParticipantResponse.suit_color registered = Some "teal".
Proof.
  destruct bob_is_admitted as (H1 & H2 & H3 & H4).
  destruct (create_upload_register 100 100 example_url example_format
              example_world bob open_event png_file jpeg_file
              (Some "teal") None H1 H2 H3 H4)
    as (r & Hr & Hregistered);
    [lia|lia|reflexivity|reflexivity|exact example_url_nonempty|].
  exists r. split; [exact Hr|]. eexists.
  split; [exact Hregistered|]. split; reflexivity.
Defined.

(** A second request for bob, with a project id this time, is refused. *)
Lemma init_twice_never_succeeds_witness :
  (run (run example_world (init_participant 100 100 bob)).1
       (init_participant 100 100
          (ParticipantInit.mk "E2" "bob" (Some "project-9")))).2
  = Failed (HTTPException 409 "Username already taken").
Proof.
  destruct bob_is_admitted as (H1 & H2 & H3 & H4).
  destruct (init_twice_never_succeeds 100 100 example_world bob
              (ParticipantInit.mk "E2" "bob" (Some "project-9")) open_event
              H1 H2 H3 H4) as (_ & _ & Htaken & _);
    [lia|lia|reflexivity|reflexivity|].
  apply Htaken. reflexivity.
Defined.

(** Carol's star field declares no type: her soil sample is stored, her
    record is not written. *)
Lemma upload_evidence_fails_midway_witness :
  extension_of (UploadFile.content_type png_file) = Some "png"
  ∧ UploadFile.content_type untyped_file = None
  ∧ (run example_world
         (upload_evidence example_url example_format "0badcafe"
                          png_file untyped_file mp4_file)).2
    = Failed TypeError
  ∧ db (run example_world
          (upload_evidence example_url example_format "0badcafe"
                           png_file untyped_file mp4_file)).1
    = db example_world.
Proof.
  assert (H1 : extension_of (UploadFile.content_type png_file) = Some "png")
    by reflexivity.
  assert (H2 : UploadFile.content_type untyped_file = None) by reflexivity.
  split; [exact H1|]. split; [exact H2|].
  destruct carol_stored as [Hp Hne].
  destruct (upload_evidence_fails_midway example_url example_format
              example_world "0badcafe" carol (VStr "E2")
              png_file untyped_file mp4_file "png" "png" Hp Hne eq_refl)
    as (_ & Hsecond & _).
  destruct (Hsecond H1 H2) as (Hout & _ & Hdb).
  exact (conj Hout Hdb).
Defined.

(** The event E3, which has no flag and no counters, admits dave. *)
Lemma init_reads_event_with_defaults_witness :
  events (db bare_world) !! "E3" = Some bare_event ∧ bare_event ≠ ∅
  ∧ ∃ r, (run bare_world (init_participant 100 100 dave)).2 = Returned r.
Proof.
  assert (Hev : events (db bare_world) !! "E3" = Some bare_event)
    by reflexivity.
  assert (Hne : bare_event ≠ ∅) by nonempty.
  split; [exact Hev|]. split; [exact Hne|].
  destruct (init_reads_event_with_defaults 100 100 bare_world dave bare_event
              Hev Hne) as [Hadmits _].
  apply Hadmits; (reflexivity || lia).
Defined.

